(** * dnstool: the CoreDNS zone store and Corefile initializer of SectorDNS

    A shallow embedding of [src/dnstool/cli.py].  Python [str] values are
    lists of characters (code points below 256), the two fixed files are
    optional texts, and the methods of [Init] and [RecordManagement] are
    computations in a small state-and-exception monad over the [World]
    (files, standard output, number of CoreDNS restarts). *)

From Stdlib Require Import Ascii String DecimalString.
From Stdlib Require Import List Bool Arith ZArith Lia Permutation.
Import ListNotations.

(** ** Python strings *)

Module Py.

Definition str := list ascii.

(** A string literal of the source. *)
Definition L (s : string) : str := list_ascii_of_string s.

Definition LF : ascii := "010"%char.
Definition CR : ascii := "013"%char.
Definition SP : ascii := " "%char.

Definition str_eqb (a b : str) : bool :=
  if list_eq_dec ascii_dec a b then true else false.

(** [s.startswith(p)] *)
Fixpoint startswith (p s : str) : bool :=
  match p, s with
  | [], _ => true
  | _ :: _, [] => false
  | a :: p', b :: s' => Ascii.eqb a b && startswith p' s'
  end.

(** [needle in s] *)
Fixpoint contains (needle s : str) : bool :=
  startswith needle s ||
  match s with
  | [] => false
  | _ :: s' => contains needle s'
  end.

(** [s.replace(old, new)] for a non-empty [old]: scan from the left; at an
    occurrence of [old] emit [new] and skip the occurrence ([skip] counts
    the characters of it still to be dropped), otherwise copy one
    character. *)
Fixpoint replace_from (skip : nat) (old new s : str) : str :=
  match s with
  | [] => []
  | c :: s' =>
      match skip with
      | S k => replace_from k old new s'
      | O =>
          if startswith old s
          then new ++ replace_from (length old - 1) old new s'
          else c :: replace_from 0 old new s'
      end
  end.

(** With an empty [old] Python inserts [new] before every character and at
    the end. *)
Fixpoint intersperse (new s : str) : str :=
  match s with
  | [] => new
  | c :: s' => new ++ c :: intersperse new s'
  end.

Definition replace (old new s : str) : str :=
  match old with
  | [] => intersperse new s
  | _ :: _ => replace_from 0 old new s
  end.

(** [str.isspace] on one character, for code points below 256: TAB, LF,
    VT, FF, CR, the four separators FS GS RS US, SPACE, NEL and NBSP. *)
Definition isspace (c : ascii) : bool :=
  let n := nat_of_ascii c in
  ((9 <=? n) && (n <=? 13)) || ((28 <=? n) && (n <=? 32))
  || (n =? 133) || (n =? 160).

Fixpoint lstrip (s : str) : str :=
  match s with
  | [] => []
  | c :: s' => if isspace c then lstrip s' else s
  end.

Definition rstrip (s : str) : str := rev (lstrip (rev s)).

(** [s.strip()] *)
Definition strip (s : str) : str := rstrip (lstrip s).

(** [s.split(sep)] for a one-character separator: never returns the empty
    list. *)
Fixpoint split (sep : ascii) (s : str) : list str :=
  match s with
  | [] => [[]]
  | c :: s' =>
      if Ascii.eqb c sep then [] :: split sep s'
      else match split sep s' with
           | [] => [[c]]
           | p :: ps => (c :: p) :: ps
           end
  end.

(** [str(n)] for an [int]. *)
Definition str_of_int (n : Z) : str := L (NilZero.string_of_int (Z.to_int n)).

(** [str(n)] for a non-negative [int] held as [N]. *)
Definition str_of_N (n : N) : str := L (NilZero.string_of_uint (N.to_uint n)).

(** Text-mode reading ([newline=None]): every ["\r\n"] and every lone
    ["\r"] of the file arrives as ["\n"].  Writing leaves ["\n"] alone on
    the platform of the tool (Linux). *)
Fixpoint universal_newlines (s : str) : str :=
  match s with
  | [] => []
  | c :: s' =>
      if Ascii.eqb c CR then
        match s' with
        | d :: s'' =>
            if Ascii.eqb d LF then LF :: universal_newlines s''
            else LF :: universal_newlines s'
        | [] => [LF]
        end
      else c :: universal_newlines s'
  end.

(** [f.readlines()] on a text: the lines, each with its ["\n"]; a last line
    without one is kept as it is. *)
Fixpoint readlines (s : str) : list str :=
  match s with
  | [] => []
  | c :: s' =>
      if Ascii.eqb c LF then [c] :: readlines s'
      else match readlines s' with
           | [] => [[c]]
           | l :: ls => (c :: l) :: ls
           end
  end.

(** [f.writelines(lines)] *)
Definition writelines (lines : list str) : str := concat lines.

End Py.
Import Py.


(** ** The world of the tool: files, output, restarts, collaborators *)

Inductive exn : Set :=
| FileNotFoundError   (* opening a file that does not exist for reading *)
| ValueError          (* unpacking a sequence of the wrong length *)
| CalledProcessError  (* a [check=True] subprocess that failed *)
| JSONDecodeError     (* [json.loads] on malformed output *)
| IndexError          (* [data[0]] on an empty list *)
| KeyError            (* [addr["label"]] and the like on a missing key *)
| StopIteration.      (* [next] when no address is labelled eth0 *)

Inductive outcome (A : Type) : Type :=
| Return (a : A)
| Raise (e : exn).
Arguments Return {A} a.
Arguments Raise {A} e.

(** The two fixed paths of the tool. *)
Inductive Path : Set := CORE_FILE | ZONE_FILE.

Record World : Type := mkWorld {
  corefile : option str;  (* text of /etc/coredns/Corefile, if it exists *)
  zonefile : option str;  (* text of /etc/coredns/zone.db, if it exists *)
  stdout : list str;      (* what [print] wrote, oldest first *)
  restarts : nat          (* how often [systemctl restart coredns] ran *)
}.

Definition content (p : Path) (w : World) : option str :=
  match p with
  | CORE_FILE => corefile w
  | ZONE_FILE => zonefile w
  end.

Definition store (p : Path) (data : str) (w : World) : World :=
  match p with
  | CORE_FILE => mkWorld (Some data) (zonefile w) (stdout w) (restarts w)
  | ZONE_FILE => mkWorld (corefile w) (Some data) (stdout w) (restarts w)
  end.

(** [ipaddress.IPv4Network]: a 32-bit network address and a prefix length. *)
Record IPv4Network : Set := mkNet {
  network_address : N;
  prefixlen : N
}.

Definition octet (i : N) (a : N) : N := N.land (N.shiftr a (8 * i)) 255.

(** [str(net)]: dotted quad, slash, prefix length. *)
Definition str_of_IPv4Network (net : IPv4Network) : str :=
  let a := network_address net in
  str_of_N (octet 3 a) ++ L "." ++ str_of_N (octet 2 a) ++ L "."
  ++ str_of_N (octet 1 a) ++ L "." ++ str_of_N (octet 0 a)
  ++ L "/" ++ str_of_N (prefixlen net).

(** What the external commands answer on this host: the network that
    [__get_cidr_from_interface__] builds from [ip -j addr show eth0] (or the
    failure of that step), and the standard output of [/usr/bin/hostname]
    (or its failure). *)
Record Host : Type := mkHost {
  eth0_network : outcome IPv4Network;
  hostname_stdout : outcome str
}.

(** ** Computations: state passing with exceptions

    A raised exception keeps the world as it was at the raise: what was
    written before stays written. *)

Definition M (A : Type) : Type := World -> outcome A * World.

Definition ret {A} (a : A) : M A := fun w => (Return a, w).

Definition raise {A} (e : exn) : M A := fun w => (Raise e, w).

Definition bind {A B} (c : M A) (k : A -> M B) : M B :=
  fun w =>
    match c w with
    | (Return a, w') => k a w'
    | (Raise e, w') => (Raise e, w')
    end.

Notation "x <- c ;; k" := (bind c (fun x => k))
  (at level 61, c at next level, right associativity).
Notation "c ;;; k" := (bind c (fun _ => k))
  (at level 61, right associativity).

(** Result of an external command, lifted. *)
Definition external {A} (r : outcome A) : M A := fun w => (r, w).

(** [with p.open("rt") as f: f.read()] *)
Definition read_text (p : Path) : M str :=
  fun w =>
    match content p w with
    | Some raw => (Return (universal_newlines raw), w)
    | None => (Raise FileNotFoundError, w)
    end.

(** [with p.open("wt") as f: f.write(data)], also for mode ["+wt"]. *)
Definition write_text (p : Path) (data : str) : M unit :=
  fun w => (Return tt, store p data w).

(** [with p.open("a") as f: f.write(data)]: creates the file if absent. *)
Definition append_text (p : Path) (data : str) : M unit :=
  fun w =>
    match content p w with
    | Some old => (Return tt, store p (old ++ data) w)
    | None => (Return tt, store p data w)
    end.

(** [p.exists()] *)
Definition path_exists (p : Path) : M bool :=
  fun w => (Return (match content p w with Some _ => true | None => false end), w).

Definition print (line : str) : M unit :=
  fun w =>
    (Return tt,
     mkWorld (corefile w) (zonefile w) (stdout w ++ [line]) (restarts w)).

(** ** class CoreDNS *)

Module CoreDNS.

(** [subprocess.run([systemctl, restart, coredns], check=False)]: the exit
    status is ignored. *)
Definition reload_coredns : M unit :=
  fun w =>
    (Return tt,
     mkWorld (corefile w) (zonefile w) (stdout w) (S (restarts w))).

End CoreDNS.

(** ** class Init *)

Module Init.

Definition __get_cidr_from_interface__ (host : Host) : M IPv4Network :=
  external (eth0_network host).

(** [zone, _ = result.stdout.split("-")]: exactly two components, or
    [ValueError]. *)
Definition __get_zone_from_hostname__ (host : Host) : M str :=
  out <- external (hostname_stdout host) ;;
  match split "-" out with
  | [zone; _] => ret (zone ++ L ".orbitlab.internal")
  | _ => raise ValueError
  end.

(** The four strings handed to [writelines]. *)
Definition zone_file_lines (zone_name : str) : list str :=
  let origin := L "$ORIGIN " ++ zone_name ++ L "." ++ [LF] in
  let soa :=
    (L "@   3600 IN SOA ns1." ++ zone_name ++ L ". admin." ++ zone_name
       ++ L ". (" ++ [LF])
    ++ L "        1 3600 600 86400 3600" ++ [LF] ++ L ")" ++ [LF] in
  let ns := L "    IN NS ns1." ++ zone_name ++ L "." ++ [LF] in
  let ns_a := L "ns1 IN A 127.0.0.1" ++ [LF] in
  [origin; soa; ns; ns_a].

Definition __create_zone_file__ (zone_name : str) : M unit :=
  present <- path_exists ZONE_FILE ;;
  if present then ret tt
  else write_text ZONE_FILE (writelines (zone_file_lines zone_name)).

Definition acl_prefix : str := L "# ACL".
Definition zone_prefix : str := L "# ZONE".

Definition acl_block (sector_cidr : IPv4Network) : str :=
  L "acl {" ++ [LF]
  ++ L "        allow net " ++ str_of_IPv4Network sector_cidr ++ [LF]
  ++ L "        drop" ++ [LF]
  ++ L "    }".

Definition zone_block (zone_name : str) : str :=
  L "file /etc/coredns/zone.db " ++ zone_name ++ L " {" ++ [LF]
  ++ L "        fallthrough" ++ [LF]
  ++ L "    }".

Definition run (host : Host) : M unit :=
  sector_cidr <- __get_cidr_from_interface__ host ;;
  zone_name <- __get_zone_from_hostname__ host ;;
  let acl := acl_block sector_cidr in
  let zone := zone_block zone_name in
  data <- read_text CORE_FILE ;;
  if negb (contains acl_prefix data) then
    print (L "Already initialized.")
  else
    write_text CORE_FILE (replace zone_prefix zone (replace acl_prefix acl data)) ;;;
    __create_zone_file__ zone_name.

End Init.

(** ** class RecordManagement *)

Record AddRecordArgs : Type := mkAdd {
  add_hostname : str;
  add_ttl : Z;
  add_ip : str
}.

Record DeleteRecordArgs : Type := mkDelete {
  delete_hostname : str
}.

Module RecordManagement.

(** [f"{args.hostname} {args.ttl} IN A {args.ip}\n"] *)
Definition record_line (args : AddRecordArgs) : str :=
  add_hostname args ++ L " " ++ str_of_int (add_ttl args) ++ L " IN A "
  ++ add_ip args ++ [LF].

Definition add_record (args : AddRecordArgs) : M unit :=
  let record := record_line args in
  append_text ZONE_FILE record ;;;
  print (L "Added A Record: " ++ add_hostname args ++ L " -> " ++ add_ip args) ;;;
  CoreDNS.reload_coredns.

Definition forbidden : list str := [L "$ORIGIN"; L "@"; L "ns1"; L " "].

Definition delete_record (args : DeleteRecordArgs) : M unit :=
  let hostname := strip (delete_hostname args) in
  if str_eqb hostname [] then
    print (L "No hostname provided")
  else if existsb (fun f => str_eqb hostname f) forbidden then
    print (L "Hostname is forbidden: " ++ hostname)
  else
    data <- read_text ZONE_FILE ;;
    let lines := readlines data in
    let new_lines :=
      filter (fun line => negb (startswith (hostname ++ L " ") line)) lines in
    if length new_lines =? length lines then
      print (L "Record not found: " ++ hostname)
    else
      write_text ZONE_FILE (writelines new_lines) ;;;
      print (L "Deleted A Record: " ++ hostname) ;;;
      CoreDNS.reload_coredns.

End RecordManagement.

(** ** Vocabulary of the properties *)

(** World after a computation, and what it returned or raised. *)
Definition exec {A} (c : M A) (w : World) : World := snd (c w).
Definition result {A} (c : M A) (w : World) : outcome A := fst (c w).

(** The text of a file as text-mode reading delivers it. *)
Definition text (p : Path) (w : World) : option str :=
  option_map universal_newlines (content p w).

(** The lines the tool sees in the zone file (none when it is absent). *)
Definition zone_lines (w : World) : list str :=
  match text ZONE_FILE w with
  | Some data => readlines data
  | None => []
  end.

(** The lines that the delete path attributes to [hostname]. *)
Definition lines_of (hostname : str) (lines : list str) : list str :=
  filter (startswith (hostname ++ L " ")) lines.

(** The lines that the delete path keeps. *)
Definition lines_without (hostname : str) (lines : list str) : list str :=
  filter (fun line => negb (startswith (hostname ++ L " ") line)) lines.

(** The world after one more printed line. *)
Definition printed (line : str) (w : World) : World :=
  mkWorld (corefile w) (zonefile w) (stdout w ++ [line]) (restarts w).

(** The world after a record line was appended to the zone text [old]. *)
Definition added (args : AddRecordArgs) (old : str) (w : World) : World :=
  mkWorld (corefile w)
    (Some (old ++ RecordManagement.record_line args))
    (stdout w ++ [L "Added A Record: " ++ add_hostname args ++ L " -> "
                    ++ add_ip args])
    (S (restarts w)).

(** The world after a successful deletion of the lines of [hostname] from
    the zone text [data]. *)
Definition deleted (hostname : str) (data : str) (w : World) : World :=
  mkWorld (corefile w)
    (Some (writelines (lines_without hostname (readlines data))))
    (stdout w ++ [L "Deleted A Record: " ++ hostname])
    (S (restarts w)).

(** *** Characters and lines *)

(** [mem c s]: the character occurs in the string. *)
Definition mem (c : ascii) (s : str) : bool := existsb (Ascii.eqb c) s.

(** A string without line breaks of either kind. *)
Definition single_line (s : str) : bool := negb (mem LF s) && negb (mem CR s).

(** A text that is empty or ends with a newline. *)
Definition terminated (s : str) : bool :=
  match rev s with
  | [] => true
  | c :: _ => Ascii.eqb c LF
  end.

(** Shape of what [readlines] returns: complete lines, each a body without
    newline followed by one, and possibly a last line without newline. *)
Inductive lines_wf : list str -> Prop :=
| wf_nil : lines_wf []
| wf_last l : l <> [] -> mem LF l = false -> lines_wf [l]
| wf_cons b ls :
    mem LF b = false -> lines_wf ls -> lines_wf ((b ++ [LF]) :: ls).

(** The characters of a decimal numeral. *)
Definition is_digit_or_minus (c : ascii) : bool :=
  let n := nat_of_ascii c in ((48 <=? n) && (n <=? 57)) || (n =? 45).

(** A record line without its newline. *)
Definition record_body (args : AddRecordArgs) : str :=
  add_hostname args ++ L " " ++ str_of_int (add_ttl args) ++ L " IN A "
  ++ add_ip args.

(** *** The fresh zone file *)

(** The content of a fresh zone file. *)
Definition zone_text (zone_name : str) : str :=
  writelines (Init.zone_file_lines zone_name).

(** Its six physical lines, without their newlines: the SOA entry spans
    three. *)
Definition physical_bodies (zone_name : str) : list str :=
  [ L "$ORIGIN " ++ zone_name ++ L ".";
    L "@   3600 IN SOA ns1." ++ zone_name ++ L ". admin." ++ zone_name
      ++ L ". (";
    L "        1 3600 600 86400 3600";
    L ")";
    L "    IN NS ns1." ++ zone_name ++ L ".";
    L "ns1 IN A 127.0.0.1" ].

Definition physical_lines (zone_name : str) : list str :=
  map (fun b => b ++ [LF]) (physical_bodies zone_name).

(** *** Uniqueness of hostnames *)

(** A hostname as the data model has it: a non-empty token without
    whitespace. *)
Definition valid_hostname (h : str) : bool :=
  negb (str_eqb h []) && forallb (fun c => negb (isspace c)) h.

(** Every hostname heads at most one line of the zone file. *)
Definition unique_hostnames (w : World) : Prop :=
  forall h, valid_hostname h = true -> length (lines_of h (zone_lines w)) <= 1.

(** States reachable by creating the zone file and then adding and deleting
    records, with any arguments. *)
Inductive reachable : World -> Prop :=
| reach_create w zone_name :
    zonefile w = None ->
    reachable (exec (Init.__create_zone_file__ zone_name) w)
| reach_add w args :
    reachable w -> reachable (exec (RecordManagement.add_record args) w)
| reach_delete w args :
    reachable w -> reachable (exec (RecordManagement.delete_record args) w).

(** A record whose hostname is a token not yet in the zone file and whose
    address is one line. *)
Definition fresh_record (w : World) (args : AddRecordArgs) : Prop :=
  valid_hostname (add_hostname args) = true
  /\ single_line (add_ip args) = true
  /\ lines_of (add_hostname args) (zone_lines w) = [].

(** The same states, when the zone name is one line and every added record
    is fresh. *)
Inductive reachable_fresh : World -> Prop :=
| fresh_create w zone_name :
    zonefile w = None ->
    single_line zone_name = true ->
    reachable_fresh (exec (Init.__create_zone_file__ zone_name) w)
| fresh_add w args :
    reachable_fresh w -> fresh_record w args ->
    reachable_fresh (exec (RecordManagement.add_record args) w)
| fresh_delete w args :
    reachable_fresh w ->
    reachable_fresh (exec (RecordManagement.delete_record args) w).

(** What every such state satisfies: the zone file exists, ends with a
    newline, has no carriage return, and no hostname heads two of its
    lines. *)
Definition zone_invariant (w : World) : Prop :=
  exists z,
    zonefile w = Some z
    /\ terminated z = true
    /\ mem CR z = false
    /\ forall h, valid_hostname h = true ->
                 length (lines_of h (readlines z)) <= 1.

(** *** Hostname and markers *)

(** Number of hyphens of a hostname. *)
Definition hyphens (s : str) : nat := count_occ ascii_dec s "-"%char.

(** [no_start old a b]: in [a ++ b], no occurrence of [old] starts within
    [a]. *)
Fixpoint no_start (old a b : str) : bool :=
  match a with
  | [] => true
  | _ :: a' => negb (startswith old (a ++ b)) && no_start old a' b
  end.

(** [stops old b]: the text [b] is empty, or starts with a character that
    [old] does not have after its first one, so that no occurrence of [old]
    runs into [b] from the left. *)
Definition stops (old b : str) : bool :=
  match b with
  | [] => true
  | d :: _ => negb (mem d (tl old))
  end.

(** [init] replaced one occurrence of each marker of [data], in place, and
    nothing else. *)
Definition substituted_once (data : str) (acl zone : str) (after : option str)
  : Prop :=
  exists a b c,
    (data = a ++ Init.acl_prefix ++ b ++ Init.zone_prefix ++ c
     /\ after = Some (a ++ acl ++ b ++ zone ++ c))
    \/ (data = a ++ Init.zone_prefix ++ b ++ Init.acl_prefix ++ c
        /\ after = Some (a ++ zone ++ b ++ acl ++ c)).

(** ** Scenarios and sample data *)

Definition web1 : AddRecordArgs := mkAdd (L "web1") 300 (L "10.0.0.5").
Definition host1 (ttl : Z) (ip : str) : AddRecordArgs := mkAdd (L "host1") ttl ip.
Definition host10 (ttl : Z) (ip : str) : AddRecordArgs := mkAdd (L "host10") ttl ip.

(** Adding a record and then deleting its hostname. *)
Definition add_then_delete (args : AddRecordArgs) : M unit :=
  RecordManagement.add_record args ;;;
  RecordManagement.delete_record (mkDelete (add_hostname args)).

(** Adding host1 and host10, then deleting host1. *)
Definition host1_host10_scenario (ttl1 : Z) (ip1 : str) (ttl10 : Z) (ip10 : str)
  : M unit :=
  RecordManagement.add_record (host1 ttl1 ip1) ;;;
  RecordManagement.add_record (host10 ttl10 ip10) ;;;
  RecordManagement.delete_record (mkDelete (L "host1")).

(** Create the zone file, add web1, delete web1: the three worlds. *)
Definition scenario_created (zone_name : str) (w : World) : World :=
  exec (Init.__create_zone_file__ zone_name) w.
Definition scenario_added (zone_name : str) (w : World) : World :=
  exec (RecordManagement.add_record web1) (scenario_created zone_name w).
Definition scenario_deleted (zone_name : str) (w : World) : World :=
  exec (RecordManagement.delete_record (mkDelete (L "web1")))
    (scenario_added zone_name w).

(** A host named sector1-dns on 10.0.0.0/24. *)
Definition sector1_host : Host :=
  mkHost (Return (mkNet 167772160 24)) (Return (L "sector1-dns" ++ [LF])).

Definition empty_world : World := mkWorld None None [] 0.

(** A Corefile that was initialized before, next to a zone file. *)
Definition initialized_world : World :=
  mkWorld (Some (L ". { acl { allow net 10.0.0.0/24 } }")) (Some (L "kept"))
    [] 0.

(** A Corefile template with one marker of each kind. *)
Definition template : str :=
  L ". {" ++ [LF] ++ L "    # ACL" ++ [LF] ++ L "    # ZONE" ++ [LF]
  ++ L "    forward . 1.1.1.1" ++ [LF] ++ L "}" ++ [LF].

Definition template_world : World := mkWorld (Some template) None [] 0.

(** A Corefile with the ACL marker in two server blocks. *)
Definition two_acl_markers : str :=
  L ". {" ++ [LF] ++ L "    # ACL" ++ [LF] ++ L "    # ZONE" ++ [LF] ++ L "}"
  ++ [LF] ++ L "lab. {" ++ [LF] ++ L "    # ACL" ++ [LF] ++ L "}" ++ [LF].

Definition two_acl_world : World := mkWorld (Some two_acl_markers) None [] 0.

(** The fresh zone file of sector1. *)
Definition sector1_zone_world : World :=
  mkWorld None (Some (zone_text (L "sector1.orbitlab.internal"))) [] 0.

(** A zone file holding one record, for host10. *)
Definition host10_world : World :=
  mkWorld None (Some (L "host10 300 IN A 10.0.0.2" ++ [LF])) [] 0.

(** A zone file that already holds a record for web1. *)
Definition web1_world : World :=
  mkWorld None (Some (L "web1 300 IN A 10.0.0.5" ++ [LF])) [] 0.

(** A zone file whose last line has no newline. *)
Definition unterminated_world : World :=
  mkWorld None (Some (L "host9 300 IN A 10.0.0.9")) [] 0.

(** The zone file of sector1 after web1 was added twice. *)
Definition duplicated_world : World :=
  exec (RecordManagement.add_record (mkAdd (L "web1") 300 (L "10.0.0.6")))
    (exec (RecordManagement.add_record web1)
       (exec (Init.__create_zone_file__ (L "sector1.orbitlab.internal"))
          empty_world)).

(** ** Further vocabulary *)

(** The string is empty or starts with a character that is not
    whitespace. *)
Definition hd_ok (s : str) : bool :=
  match s with
  | [] => true
  | c :: _ => negb (isspace c)
  end.

(** No whitespace at either end. *)
Definition no_outer_space (s : str) : bool := hd_ok s && hd_ok (rev s).

(** The world after [init] wrote the text [new] to the Corefile and made
    sure the zone file exists. *)
Definition after_init (new : str) (zone_name : str) (w : World) : World :=
  mkWorld (Some new)
    (Some (match zonefile w with
           | Some z => z
           | None => zone_text zone_name
           end))
    (stdout w) (restarts w).

(** States reached from the creation of the zone file for [zone_name] by
    adds with any arguments and by deletes whose trimmed hostname has no
    space inside. *)
Inductive header_reachable (zone_name : str) : World -> Prop :=
| hr_create w :
    zonefile w = None ->
    header_reachable zone_name (exec (Init.__create_zone_file__ zone_name) w)
| hr_add w args :
    header_reachable zone_name w ->
    header_reachable zone_name (exec (RecordManagement.add_record args) w)
| hr_delete w args :
    header_reachable zone_name w ->
    mem SP (strip (delete_hostname args)) = false ->
    header_reachable zone_name (exec (RecordManagement.delete_record args) w).

(** A zone file with two lines for web1 and one for web10. *)
Definition crowded_world : World :=
  mkWorld None
    (Some (L "web1 300 IN A 10.0.0.5" ++ [LF] ++ L "web10 300 IN A 10.0.0.7"
           ++ [LF] ++ L "web1 60 IN A 10.0.0.6" ++ [LF]))
    [] 0.

(** A host whose name has no hyphen. *)
Definition localhost_host : Host :=
  mkHost (Return (mkNet 167772160 24)) (Return (L "localhost" ++ [LF])).

(** A Corefile template with the ACL marker only. *)
Definition acl_only_template : str :=
  L ". {" ++ [LF] ++ L "    # ACL" ++ [LF] ++ L "    forward . 1.1.1.1" ++ [LF]
  ++ L "}" ++ [LF].

Definition acl_only_world : World :=
  mkWorld (Some acl_only_template) None [] 0.

(** * Checks on concrete inputs *)

Example startswith_host1_host10 :
  startswith (L "host1 ") (L "host10 300 IN A 10.0.0.2") = false.
Proof. reflexivity. Qed.

Example replace_all_occurrences :
  replace (L "ab") (L "X") (L "abcabab") = L "XcXX".
Proof. reflexivity. Qed.

Example strip_example : strip (L "  web1	 ") = L "web1".
Proof. reflexivity. Qed.

Example split_example : split "-" (L "sector1-dns") = [L "sector1"; L "dns"].
Proof. reflexivity. Qed.

Example readlines_example :
  readlines (L "a b
c
d") = [ [ "a"; " "; "b"; LF ]; [ "c"; LF ]; [ "d" ] ]%char.
Proof. reflexivity. Qed.

Example universal_newlines_example :
  universal_newlines ("a" :: CR :: LF :: "b" :: CR :: ["c"])%char
  = ("a" :: LF :: "b" :: LF :: ["c"])%char.
Proof. reflexivity. Qed.

Example str_of_int_examples :
  str_of_int 300 = L "300" /\ str_of_int 0 = L "0" /\ str_of_int (-5) = L "-5".
Proof. repeat split; reflexivity. Qed.

(** * Python strings: lemmas *)

Lemma mem_false c s : mem c s = false <-> ~ In c s.
Proof.
  unfold mem. split.
  - intros H Hin. assert (existsb (Ascii.eqb c) s = true) as E.
    { apply existsb_exists. exists c. split; [exact Hin | apply Ascii.eqb_refl]. }
    congruence.
  - intros H. destruct (existsb (Ascii.eqb c) s) eqn:E; [| reflexivity].
    apply existsb_exists in E. destruct E as [x [Hx Hc]].
    apply Ascii.eqb_eq in Hc. subst x. contradiction.
Qed.

Lemma mem_app c a b : mem c (a ++ b) = mem c a || mem c b.
Proof. unfold mem. apply existsb_app. Qed.

Lemma mem_cons c d s : mem c (d :: s) = Ascii.eqb c d || mem c s.
Proof. reflexivity. Qed.

Lemma str_eqb_eq a b : str_eqb a b = true <-> a = b.
Proof. unfold str_eqb. destruct (list_eq_dec ascii_dec a b); split; congruence. Qed.

Lemma str_eqb_neq a b : str_eqb a b = false <-> a <> b.
Proof. unfold str_eqb. destruct (list_eq_dec ascii_dec a b); split; congruence. Qed.

Lemma startswith_app p s : startswith p (p ++ s) = true.
Proof. induction p as [| a p IH]; simpl; [reflexivity |]. now rewrite Ascii.eqb_refl. Qed.

Lemma startswith_prefix p s : startswith p s = true <-> exists t, s = p ++ t.
Proof.
  split.
  - revert s. induction p as [| a p IH]; intros s H.
    + exists s. reflexivity.
    + destruct s as [| b s]; [discriminate |]. simpl in H.
      apply andb_true_iff in H. destruct H as [Hab Hp].
      apply Ascii.eqb_eq in Hab. subst b.
      destruct (IH _ Hp) as [t ->]. exists t. reflexivity.
  - intros [t ->]. apply startswith_app.
Qed.

(** ** split *)

Lemma split_not_nil sep s : split sep s <> [].
Proof.
  destruct s as [| c s]; simpl; [discriminate |].
  destruct (Ascii.eqb c sep); [discriminate |].
  destruct (split sep s); discriminate.
Qed.

Lemma split_without_sep sep s : mem sep s = false -> split sep s = [s].
Proof.
  induction s as [| c s IH]; intros H; [reflexivity |].
  rewrite mem_cons in H. apply orb_false_iff in H. destruct H as [Hc Hs].
  simpl. rewrite Ascii.eqb_sym, Hc, (IH Hs). reflexivity.
Qed.

Lemma split_at_first sep a b :
  mem sep a = false -> split sep (a ++ sep :: b) = a :: split sep b.
Proof.
  induction a as [| c a IH]; intros H.
  - simpl. now rewrite Ascii.eqb_refl.
  - rewrite mem_cons in H. apply orb_false_iff in H. destruct H as [Hc Ha].
    simpl. rewrite Ascii.eqb_sym, Hc, (IH Ha). reflexivity.
Qed.

Lemma split_length s : length (split "-" s) = S (hyphens s).
Proof.
  unfold hyphens. induction s as [| c s IH]; [reflexivity |].
  simpl. destruct (Ascii.eqb_spec c "-") as [-> | Hne].
  - destruct (ascii_dec "-" "-"); [| contradiction]. simpl. now rewrite IH.
  - destruct (ascii_dec c "-"); [contradiction |].
    destruct (split "-" s) eqn:E; [now apply split_not_nil in E |].
    simpl in *. exact IH.
Qed.

(** * Zone name (hostname discovery) *)

Example zone_of_sector1 :
  Init.__get_zone_from_hostname__ sector1_host empty_world
  = (Return (L "sector1.orbitlab.internal"), empty_world).
Proof. reflexivity. Qed.

Example cidr_of_sector1 :
  str_of_IPv4Network (mkNet 167772160 24) = L "10.0.0.0/24".
Proof. reflexivity. Qed.

(** C8, as amended: from a hostname output with exactly one hyphen,
    ["<a>-<b>"], the zone name derived is ["<a>.orbitlab.internal"]; from an
    output without hyphen the derivation raises [ValueError] and yields no
    zone name. The world is never touched. *)
Theorem zone_from_hostname_one_hyphen (host : Host) (out : str) (w : World) :
  hostname_stdout host = Return out ->
  (forall a b, out = a ++ "-"%char :: b ->
     mem "-" a = false -> mem "-" b = false ->
     Init.__get_zone_from_hostname__ host w
     = (Return (a ++ L ".orbitlab.internal"), w))
  /\ (mem "-" out = false ->
      Init.__get_zone_from_hostname__ host w = (Raise ValueError, w)).
Proof.
  intros Hout. unfold Init.__get_zone_from_hostname__, bind, external.
  rewrite Hout. split.
  - intros a b -> Ha Hb.
    rewrite (split_at_first _ _ _ Ha), (split_without_sep _ _ Hb). reflexivity.
  - intros Hn. rewrite (split_without_sep _ _ Hn). reflexivity.
Qed.

Lemma zone_from_hostname_one_hyphen_witness :
  Init.__get_zone_from_hostname__ sector1_host empty_world
  = (Return (L "sector1" ++ L ".orbitlab.internal"), empty_world).
Proof.
  apply (proj1 (zone_from_hostname_one_hyphen sector1_host
                  (L "sector1-dns" ++ [LF]) empty_world eq_refl)
           (L "sector1") (L "dns" ++ [LF]));
    reflexivity.
Defined.

(** C8, as stated, fails: a hostname without a hyphen has a first
    hyphen-delimited component (the whole name), yet no zone name is
    derived from it. *)
Lemma zone_from_hostname_counterexample :
  ~ (forall (host : Host) (out : str) (w : World),
       hostname_stdout host = Return out ->
       result (Init.__get_zone_from_hostname__ host) w
       = Return (hd [] (split "-" out) ++ L ".orbitlab.internal")).
Proof.
  intros H.
  specialize (H (mkHost (Return (mkNet 167772160 24))
                   (Return (L "localhost" ++ [LF])))
                (L "localhost" ++ [LF]) empty_world eq_refl).
  vm_compute in H. discriminate H.
Qed.

(** * Zone-file creation *)

Lemma create_on_existing zone_name w data :
  zonefile w = Some data ->
  Init.__create_zone_file__ zone_name w = (Return tt, w).
Proof.
  intros H. unfold Init.__create_zone_file__, bind, path_exists, ret. simpl.
  now rewrite H.
Qed.

Lemma create_on_absent zone_name w :
  zonefile w = None ->
  Init.__create_zone_file__ zone_name w
  = (Return tt,
     mkWorld (corefile w) (Some (writelines (Init.zone_file_lines zone_name)))
       (stdout w) (restarts w)).
Proof.
  intros H. unfold Init.__create_zone_file__, bind, path_exists, write_text.
  simpl. now rewrite H.
Qed.

(** C9: creating the zone file a second time changes nothing and raises
    nothing, whatever the zone names; on an existing zone file creation is
    a no-op that succeeds. *)
Theorem create_zone_file_idempotent (zone_name zone_name' : str) (w : World) :
  (Init.__create_zone_file__ zone_name ;;; Init.__create_zone_file__ zone_name') w
  = Init.__create_zone_file__ zone_name w
  /\ result (Init.__create_zone_file__ zone_name) w = Return tt
  /\ (forall data, zonefile w = Some data ->
        Init.__create_zone_file__ zone_name w = (Return tt, w)).
Proof.
  split; [| split].
  - unfold bind. destruct (zonefile w) as [data |] eqn:E.
    + rewrite (create_on_existing zone_name w _ E).
      now rewrite (create_on_existing zone_name' w _ E).
    + rewrite (create_on_absent zone_name w E).
      now rewrite (create_on_existing zone_name' (mkWorld _ (Some _) _ _) _ eq_refl).
  - unfold result. destruct (zonefile w) as [data |] eqn:E.
    + now rewrite (create_on_existing zone_name w _ E).
    + now rewrite (create_on_absent zone_name w E).
  - intros data. apply create_on_existing.
Qed.

Lemma create_zone_file_idempotent_witness :
  Init.__create_zone_file__ (L "sector1.orbitlab.internal")
    (mkWorld None (Some (L "kept")) [] 0)
  = (Return tt, mkWorld None (Some (L "kept")) [] 0).
Proof.
  apply (proj2 (proj2 (create_zone_file_idempotent
                         (L "sector1.orbitlab.internal")
                         (L "sector1.orbitlab.internal")
                         (mkWorld None (Some (L "kept")) [] 0)))
           (L "kept")).
  reflexivity.
Defined.

(** * Lines of a text *)

Lemma readlines_nil_iff s : readlines s = [] <-> s = [].
Proof.
  split; [| now intros ->].
  destruct s as [| c s]; [reflexivity |]. simpl.
  destruct (Ascii.eqb c LF); [discriminate |].
  destruct (readlines s); discriminate.
Qed.

Lemma concat_readlines s : concat (readlines s) = s.
Proof.
  induction s as [| c s IH]; [reflexivity |]. simpl.
  destruct (Ascii.eqb c LF).
  - simpl. now rewrite IH.
  - destruct (readlines s) as [| l ls]; simpl in *.
    + now rewrite <- IH.
    + now rewrite IH.
Qed.

Lemma readlines_wf s : lines_wf (readlines s).
Proof.
  induction s as [| c s IH]; [constructor |]. simpl.
  destruct (Ascii.eqb_spec c LF) as [-> | Hne].
  - apply (wf_cons [] _ eq_refl IH).
  - assert (Ascii.eqb LF c = false) as Hc.
    { apply Ascii.eqb_neq. congruence. }
    destruct (readlines s) as [| l ls].
    + apply wf_last; [discriminate |]. rewrite mem_cons, Hc. reflexivity.
    + inversion IH as [| l' Hl Hm | b ls' Hb Hls]; subst.
      * apply wf_last; [discriminate |]. rewrite mem_cons, Hc. exact Hm.
      * apply (wf_cons (c :: b)); [| exact Hls]. rewrite mem_cons, Hc. exact Hb.
Qed.

Lemma readlines_line b s :
  mem LF b = false -> readlines (b ++ LF :: s) = (b ++ [LF]) :: readlines s.
Proof.
  induction b as [| c b IH]; intros H; [reflexivity |].
  rewrite mem_cons in H. apply orb_false_iff in H. destruct H as [Hc Hb].
  simpl. rewrite Ascii.eqb_sym, Hc, (IH Hb). reflexivity.
Qed.

Lemma readlines_partial l :
  l <> [] -> mem LF l = false -> readlines l = [l].
Proof.
  induction l as [| c l IH]; intros Hne H; [contradiction |].
  rewrite mem_cons in H. apply orb_false_iff in H. destruct H as [Hc Hl].
  simpl. rewrite Ascii.eqb_sym, Hc.
  destruct l as [| d l]; [reflexivity |].
  rewrite IH; [reflexivity | discriminate | exact Hl].
Qed.

Lemma readlines_concat ls : lines_wf ls -> readlines (concat ls) = ls.
Proof.
  induction 1 as [| l Hne Hl | b ls Hb Hls IH]; simpl.
  - reflexivity.
  - rewrite app_nil_r. now apply readlines_partial.
  - rewrite <- app_assoc. simpl. rewrite (readlines_line _ _ Hb), IH. reflexivity.
Qed.

Lemma lines_wf_filter p ls : lines_wf ls -> lines_wf (filter p ls).
Proof.
  induction 1 as [| l Hne Hl | b ls Hb Hls IH]; simpl.
  - constructor.
  - destruct (p l); now constructor.
  - destruct (p (b ++ [LF])); [now constructor | exact IH].
Qed.

(** Re-reading what was kept of the lines of a text gives the kept lines. *)
Lemma readlines_filter p s :
  readlines (concat (filter p (readlines s))) = filter p (readlines s).
Proof. apply readlines_concat, lines_wf_filter, readlines_wf. Qed.

Lemma readlines_app_terminated a s :
  readlines ((a ++ [LF]) ++ s) = readlines (a ++ [LF]) ++ readlines s.
Proof.
  induction a as [| c a IH]; [reflexivity |]. simpl.
  destruct (Ascii.eqb c LF).
  - rewrite IH. reflexivity.
  - rewrite IH. destruct (readlines (a ++ [LF])) eqn:E; [| reflexivity].
    apply readlines_nil_iff in E. now destruct a.
Qed.

Lemma terminated_spec s :
  terminated s = true <-> s = [] \/ exists a, s = a ++ [LF].
Proof.
  unfold terminated. split.
  - intros H. destruct (rev s) as [| c r] eqn:E.
    + left. now rewrite <- (rev_involutive s), E.
    + right. apply Ascii.eqb_eq in H. subst c. exists (rev r).
      now rewrite <- (rev_involutive s), E.
  - intros [-> | [a ->]]; [reflexivity |].
    rewrite rev_app_distr. reflexivity.
Qed.

Lemma readlines_app s t :
  terminated s = true -> readlines (s ++ t) = readlines s ++ readlines t.
Proof.
  intros H. apply terminated_spec in H. destruct H as [-> | [a ->]].
  - reflexivity.
  - apply readlines_app_terminated.
Qed.

(** ** Newline translation *)

Lemma universal_newlines_id s : mem CR s = false -> universal_newlines s = s.
Proof.
  induction s as [| c s IH]; intros H; [reflexivity |].
  rewrite mem_cons in H. apply orb_false_iff in H. destruct H as [Hc Hs].
  simpl. rewrite Ascii.eqb_sym, Hc, (IH Hs). reflexivity.
Qed.

Lemma universal_newlines_cons c s :
  universal_newlines (c :: s)
  = if Ascii.eqb c CR
    then match s with
         | d :: s'' =>
             if Ascii.eqb d LF then LF :: universal_newlines s''
             else LF :: universal_newlines s
         | [] => [LF]
         end
    else c :: universal_newlines s.
Proof. reflexivity. Qed.

Lemma universal_newlines_no_CR_aux s :
  mem CR (universal_newlines s) = false
  /\ forall c, mem CR (universal_newlines (c :: s)) = false.
Proof.
  induction s as [| d s [IH1 IH2]].
  - split; [reflexivity |]. intros c. rewrite universal_newlines_cons.
    destruct (Ascii.eqb_spec c CR) as [-> | Hne]; [reflexivity |].
    rewrite mem_cons, orb_false_r. apply Ascii.eqb_neq. congruence.
  - split; [apply IH2 |]. intros c. rewrite universal_newlines_cons.
    destruct (Ascii.eqb_spec c CR) as [-> | Hne].
    + destruct (Ascii.eqb d LF); rewrite mem_cons;
        [exact IH1 | apply IH2].
    + rewrite mem_cons, IH2, orb_false_r. apply Ascii.eqb_neq. congruence.
Qed.

Lemma universal_newlines_no_CR s : mem CR (universal_newlines s) = false.
Proof. apply universal_newlines_no_CR_aux. Qed.

Lemma mem_concat_filter c p (ls : list str) :
  mem c (concat ls) = false -> mem c (concat (filter p ls)) = false.
Proof.
  rewrite !mem_false. intros H Hin. apply H.
  apply in_concat in Hin. destruct Hin as [l [Hl Hc]].
  apply filter_In in Hl. apply in_concat. exists l. tauto.
Qed.

(** * Record management: what each call does *)

Lemma lines_without_all hostname ls :
  lines_of hostname ls = [] -> lines_without hostname ls = ls.
Proof.
  unfold lines_of, lines_without. intros H.
  apply forallb_filter_id. apply forallb_forall. intros l Hl.
  destruct (startswith (hostname ++ L " ") l) eqn:E; [| reflexivity].
  assert (In l (filter (startswith (hostname ++ L " ")) ls)) as Hin.
  { apply filter_In. now split. }
  rewrite H in Hin. contradiction.
Qed.

Lemma lines_without_fewer hostname ls :
  lines_of hostname ls <> [] ->
  (length (lines_without hostname ls) =? length ls) = false.
Proof.
  unfold lines_of, lines_without. intros H.
  apply Nat.eqb_neq. intros Hlen.
  apply filter_length_forallb in Hlen. apply H.
  induction ls as [| l ls IH]; [reflexivity |].
  simpl in Hlen. apply andb_true_iff in Hlen. destruct Hlen as [Hl Hls].
  simpl. apply negb_true_iff in Hl. rewrite Hl. apply IH.
  - intros E. apply H. simpl. now rewrite Hl.
  - exact Hls.
Qed.

Lemma add_record_run args w :
  RecordManagement.add_record args w
  = (Return tt,
     added args (match zonefile w with Some old => old | None => [] end) w).
Proof.
  unfold RecordManagement.add_record, bind, append_text, print,
    CoreDNS.reload_coredns, added. simpl.
  destruct (zonefile w); reflexivity.
Qed.

Lemma delete_record_run args w :
  let hostname := strip (delete_hostname args) in
  RecordManagement.delete_record args w
  = if str_eqb hostname [] then
      (Return tt, printed (L "No hostname provided") w)
    else if existsb (str_eqb hostname) RecordManagement.forbidden then
      (Return tt, printed (L "Hostname is forbidden: " ++ hostname) w)
    else
      match text ZONE_FILE w with
      | None => (Raise FileNotFoundError, w)
      | Some data =>
          match lines_of hostname (readlines data) with
          | [] => (Return tt, printed (L "Record not found: " ++ hostname) w)
          | _ :: _ => (Return tt, deleted hostname data w)
          end
      end.
Proof.
  intros hostname. unfold RecordManagement.delete_record. fold hostname.
  destruct (str_eqb hostname []); [reflexivity |].
  destruct (existsb _ RecordManagement.forbidden); [reflexivity |].
  unfold bind, read_text, text, content, option_map.
  destruct (zonefile w) as [raw |]; [| reflexivity].
  cbv beta iota zeta.
  fold (lines_without hostname (readlines (universal_newlines raw))).
  destruct (lines_of hostname (readlines (universal_newlines raw))) eqn:E.
  - rewrite (lines_without_all _ _ E), Nat.eqb_refl. reflexivity.
  - rewrite lines_without_fewer; [reflexivity |]. rewrite E. discriminate.
Qed.

(** * Initialization guard *)

Lemma get_zone_from_hostname_frame host w :
  snd (Init.__get_zone_from_hostname__ host w) = w.
Proof.
  unfold Init.__get_zone_from_hostname__, bind, external.
  destruct (hostname_stdout host) as [out | e]; [| reflexivity].
  destruct (split "-" out) as [| x [| y [| z l]]]; reflexivity.
Qed.

Lemma get_zone_from_hostname_pair host w :
  Init.__get_zone_from_hostname__ host w
  = (result (Init.__get_zone_from_hostname__ host) w, w).
Proof.
  unfold result. rewrite <- (get_zone_from_hostname_frame host w) at 3.
  now destruct (Init.__get_zone_from_hostname__ host w).
Qed.

(** What [run] does once both discoveries succeeded. *)
Lemma run_after_discovery host w net zone_name :
  eth0_network host = Return net ->
  result (Init.__get_zone_from_hostname__ host) w = Return zone_name ->
  Init.run host w
  = (data <- read_text CORE_FILE ;;
     if negb (contains Init.acl_prefix data) then
       print (L "Already initialized.")
     else
       write_text CORE_FILE
         (replace Init.zone_prefix (Init.zone_block zone_name)
            (replace Init.acl_prefix (Init.acl_block net) data)) ;;;
       Init.__create_zone_file__ zone_name) w.
Proof.
  intros Hnet Hzone. unfold Init.run, Init.__get_cidr_from_interface__.
  unfold bind at 1. unfold external at 1. rewrite Hnet.
  unfold bind at 1. rewrite get_zone_from_hostname_pair, Hzone. reflexivity.
Qed.

(** C1: when the text of the Corefile lacks the ACL marker, [init] writes
    neither file and restarts nothing; and, the subnet and the zone name
    having been discovered, it returns after printing "Already
    initialized." as its only effect. *)
Theorem init_without_acl_marker (host : Host) (w : World) (data : str) :
  text CORE_FILE w = Some data ->
  contains Init.acl_prefix data = false ->
  corefile (exec (Init.run host) w) = corefile w
  /\ zonefile (exec (Init.run host) w) = zonefile w
  /\ restarts (exec (Init.run host) w) = restarts w
  /\ (forall net zone_name,
        eth0_network host = Return net ->
        result (Init.__get_zone_from_hostname__ host) w = Return zone_name ->
        Init.run host w = (Return tt, printed (L "Already initialized.") w)).
Proof.
  intros Htext Hacl.
  assert (forall net zone_name,
             eth0_network host = Return net ->
             result (Init.__get_zone_from_hostname__ host) w = Return zone_name ->
             Init.run host w = (Return tt, printed (L "Already initialized.") w))
    as Hrun.
  { intros net zone_name Hnet Hzone.
    rewrite (run_after_discovery host w net zone_name Hnet Hzone).
    unfold bind, read_text. unfold text, option_map in Htext.
    destruct (content CORE_FILE w) as [raw |]; [| discriminate].
    injection Htext as ->. rewrite Hacl. reflexivity. }
  destruct (eth0_network host) as [net | e] eqn:Hnet.
  - destruct (result (Init.__get_zone_from_hostname__ host) w)
      as [zone_name | e] eqn:Hzone.
    + unfold exec. rewrite (Hrun net zone_name eq_refl eq_refl).
      repeat split.
    + assert (Init.run host w = (Raise e, w)) as E.
      { unfold Init.run, Init.__get_cidr_from_interface__.
        unfold bind at 1. unfold external at 1. rewrite Hnet.
        unfold bind at 1. rewrite get_zone_from_hostname_pair, Hzone.
        reflexivity. }
      unfold exec. rewrite E. repeat split. intros net' z' _ H. discriminate H.
  - assert (Init.run host w = (Raise e, w)) as E.
    { unfold Init.run, Init.__get_cidr_from_interface__.
      unfold bind at 1. unfold external at 1. rewrite Hnet. reflexivity. }
    unfold exec. rewrite E. repeat split. intros net' z' H. discriminate H.
Qed.

Lemma init_without_acl_marker_witness :
  Init.run sector1_host initialized_world
  = (Return tt, printed (L "Already initialized.") initialized_world).
Proof.
  apply (proj2 (proj2 (proj2
           (init_without_acl_marker sector1_host initialized_world
              (L ". { acl { allow net 10.0.0.0/24 } }") eq_refl eq_refl)))
           (mkNet 167772160 24) (L "sector1.orbitlab.internal"));
    reflexivity.
Defined.

(** * Deletion *)



Lemma text_no_CR p w data : text p w = Some data -> mem CR data = false.
Proof.
  unfold text, option_map. destruct (content p w) as [raw |]; [| discriminate].
  intros H. injection H as <-. apply universal_newlines_no_CR.
Qed.

(** C10: a hostname that passes the checks and heads at least one line is
    deleted by writing back, in their order, exactly the lines read that do
    not start with ["<hostname> "]; read again, the file has these lines
    and no others. *)
Theorem delete_record_keeps_other_lines
    (args : DeleteRecordArgs) (w : World) (data : str) :
  let hostname := strip (delete_hostname args) in
  text ZONE_FILE w = Some data ->
  hostname <> [] ->
  ~ In hostname RecordManagement.forbidden ->
  lines_of hostname (readlines data) <> [] ->
  RecordManagement.delete_record args w = (Return tt, deleted hostname data w)
  /\ zonefile (deleted hostname data w)
     = Some (writelines (lines_without hostname (readlines data)))
  /\ zone_lines (deleted hostname data w)
     = lines_without hostname (readlines data).
Proof.
  intros hostname Hdata Hne Hres Hsome. split; [| split].
  - rewrite delete_record_run. fold hostname.
    apply str_eqb_neq in Hne. rewrite Hne.
    destruct (existsb (str_eqb hostname) RecordManagement.forbidden) eqn:E.
    { apply existsb_exists in E. destruct E as [f [Hf Heq]].
      apply str_eqb_eq in Heq. subst f. contradiction. }
    rewrite Hdata.
    destruct (lines_of hostname (readlines data)); [contradiction | reflexivity].
  - reflexivity.
  - unfold zone_lines, text, deleted, writelines, lines_without. simpl.
    rewrite universal_newlines_id.
    + apply readlines_filter.
    + apply mem_concat_filter. rewrite concat_readlines.
      exact (text_no_CR _ _ _ Hdata).
Qed.

Lemma delete_record_keeps_other_lines_witness :
  let data :=
    L "web1 300 IN A 10.0.0.5" ++ [LF] ++ L "web10 300 IN A 10.0.0.7" ++ [LF]
    ++ L "web1 60 IN A 10.0.0.6" ++ [LF] in
  RecordManagement.delete_record (mkDelete (L "web1")) crowded_world
  = (Return tt, deleted (L "web1") data crowded_world)
  /\ zonefile (deleted (L "web1") data crowded_world)
     = Some (writelines (lines_without (L "web1") (readlines data)))
  /\ zone_lines (deleted (L "web1") data crowded_world)
     = lines_without (L "web1") (readlines data).
Proof.
  apply (delete_record_keeps_other_lines (mkDelete (L "web1")) crowded_world
           (L "web1 300 IN A 10.0.0.5" ++ [LF] ++ L "web10 300 IN A 10.0.0.7"
            ++ [LF] ++ L "web1 60 IN A 10.0.0.6" ++ [LF]) eq_refl).
  - discriminate.
  - vm_compute. intuition discriminate.
  - discriminate.
Defined.

Example crowded_world_kept_lines :
  zone_lines
    (exec (RecordManagement.delete_record (mkDelete (L "web1"))) crowded_world)
  = [L "web10 300 IN A 10.0.0.7" ++ [LF]].
Proof. reflexivity. Qed.

(** * Texts that end with a newline *)

Lemma terminated_app a b :
  terminated a = true -> terminated b = true -> terminated (a ++ b) = true.
Proof.
  intros Ha Hb. apply terminated_spec in Hb. destruct Hb as [-> | [b' ->]].
  - now rewrite app_nil_r.
  - apply terminated_spec. right. exists (a ++ b'). now rewrite app_assoc.
Qed.

Lemma terminated_app_LF a : terminated (a ++ [LF]) = true.
Proof. apply terminated_spec. right. now exists a. Qed.

Lemma terminated_app_inv a b : terminated (a ++ b) = true -> terminated b = true.
Proof.
  unfold terminated. rewrite rev_app_distr.
  destruct (rev b) as [| c r]; [reflexivity |]. simpl. tauto.
Qed.

Lemma terminated_concat ls :
  Forall (fun l => terminated l = true) ls -> terminated (concat ls) = true.
Proof.
  induction 1 as [| l ls Hl Hls IH]; [reflexivity |].
  simpl. now apply terminated_app.
Qed.

Lemma lines_of_terminated ls :
  lines_wf ls -> terminated (concat ls) = true ->
  Forall (fun l => terminated l = true) ls.
Proof.
  induction 1 as [| l Hne Hl | b ls Hb Hls IH]; intros H.
  - constructor.
  - constructor; [| constructor]. simpl in H. now rewrite app_nil_r in H.
  - constructor; [apply terminated_app_LF |].
    apply IH. simpl in H. now apply terminated_app_inv in H.
Qed.

Lemma terminated_filter p s :
  terminated s = true ->
  terminated (concat (filter p (readlines s))) = true.
Proof.
  intros H. apply terminated_concat.
  assert (Forall (fun l => terminated l = true) (readlines s)) as F.
  { apply lines_of_terminated; [apply readlines_wf |].
    now rewrite concat_readlines. }
  rewrite Forall_forall in *. intros l Hl. apply F.
  apply filter_In in Hl. tauto.
Qed.

(** A complete line appended to a terminated text is one more line. *)
Lemma readlines_app_line s b :
  terminated s = true -> mem LF b = false ->
  readlines (s ++ b ++ [LF]) = readlines s ++ [b ++ [LF]].
Proof.
  intros Hs Hb. rewrite (readlines_app _ _ Hs). f_equal.
  exact (readlines_line b [] Hb).
Qed.

(** * Decimal numerals *)

Lemma string_of_uint_chars d :
  forallb is_digit_or_minus (L (NilEmpty.string_of_uint d)) = true.
Proof. induction d; simpl; auto. Qed.

Lemma str_of_uint_chars d :
  forallb is_digit_or_minus (L (NilZero.string_of_uint d)) = true.
Proof.
  destruct d; try reflexivity; apply (string_of_uint_chars (_ _)).
Qed.

Lemma str_of_int_chars n : forallb is_digit_or_minus (str_of_int n) = true.
Proof.
  unfold str_of_int, NilZero.string_of_int.
  destruct (Z.to_int n) as [d | d].
  - apply str_of_uint_chars.
  - change (L (String "-" (NilZero.string_of_uint d)))
      with ("-"%char :: L (NilZero.string_of_uint d)).
    simpl forallb. now rewrite str_of_uint_chars.
Qed.

Lemma str_of_N_chars n : forallb is_digit_or_minus (str_of_N n) = true.
Proof. apply str_of_uint_chars. Qed.

Lemma numeral_mem c s :
  forallb is_digit_or_minus s = true -> is_digit_or_minus c = false ->
  mem c s = false.
Proof.
  intros Hs Hc. apply mem_false. intros Hin.
  rewrite forallb_forall in Hs. specialize (Hs c Hin). congruence.
Qed.

Lemma str_of_int_single_line n : single_line (str_of_int n) = true.
Proof.
  unfold single_line.
  rewrite !(numeral_mem _ _ (str_of_int_chars n)); reflexivity.
Qed.

(** * Appending a record *)

Lemma single_line_app a b : single_line (a ++ b) = single_line a && single_line b.
Proof.
  unfold single_line. rewrite !mem_app.
  destruct (mem LF a), (mem LF b), (mem CR a), (mem CR b); reflexivity.
Qed.

Lemma single_line_LF s : single_line s = true -> mem LF s = false.
Proof.
  unfold single_line. intros H. apply andb_true_iff in H.
  now apply negb_true_iff.
Qed.

Lemma single_line_CR s : single_line s = true -> mem CR s = false.
Proof.
  unfold single_line. intros H. apply andb_true_iff in H.
  now apply negb_true_iff.
Qed.

Lemma record_line_body args :
  RecordManagement.record_line args = record_body args ++ [LF].
Proof.
  unfold RecordManagement.record_line, record_body.
  now rewrite <- !app_assoc.
Qed.

Lemma record_body_single_line args :
  single_line (add_hostname args) = true ->
  single_line (add_ip args) = true ->
  single_line (record_body args) = true.
Proof.
  intros Hh Hip. unfold record_body.
  rewrite !single_line_app, Hh, Hip, str_of_int_single_line. reflexivity.
Qed.

Lemma record_line_startswith args :
  startswith (add_hostname args ++ L " ") (RecordManagement.record_line args)
  = true.
Proof.
  unfold RecordManagement.record_line. rewrite app_assoc.
  apply startswith_app.
Qed.

Lemma universal_newlines_app_aux s a :
  (forall s', s <> LF :: s') ->
  universal_newlines (a ++ s) = universal_newlines a ++ universal_newlines s
  /\ forall c, universal_newlines ((c :: a) ++ s)
               = universal_newlines (c :: a) ++ universal_newlines s.
Proof.
  intros Hs. induction a as [| d a [IH1 IH2]].
  - split; [reflexivity |]. intros c. simpl app.
    rewrite !universal_newlines_cons.
    destruct (Ascii.eqb c CR); [| reflexivity].
    destruct s as [| d s]; [reflexivity |].
    destruct (Ascii.eqb_spec d LF) as [-> | Hne]; [now destruct (Hs s) |].
    reflexivity.
  - split; [apply IH2 |]. intros c.
    change ((c :: d :: a) ++ s) with (c :: (d :: a) ++ s).
    rewrite (universal_newlines_cons c ((d :: a) ++ s)).
    rewrite (universal_newlines_cons c (d :: a)).
    change ((d :: a) ++ s) with (d :: a ++ s) at 1.
    cbv iota. rewrite IH1, IH2.
    destruct (Ascii.eqb c CR); [| reflexivity].
    destruct (Ascii.eqb d LF); reflexivity.
Qed.

(** Translation of a text extended by something that does not start with a
    newline. *)
Lemma universal_newlines_app a s :
  (forall s', s <> LF :: s') ->
  universal_newlines (a ++ s) = universal_newlines a ++ universal_newlines s.
Proof. intros H. now apply universal_newlines_app_aux. Qed.

Lemma record_line_not_LF args s' :
  mem LF (add_hostname args) = false ->
  RecordManagement.record_line args <> LF :: s'.
Proof.
  unfold RecordManagement.record_line. intros H E.
  destruct (add_hostname args) as [| c h]; [discriminate E |].
  injection E as -> _. rewrite mem_cons, Ascii.eqb_refl in H. discriminate H.
Qed.

Lemma record_line_no_CR args :
  single_line (add_hostname args) = true ->
  single_line (add_ip args) = true ->
  mem CR (RecordManagement.record_line args) = false.
Proof.
  intros Hh Hip. rewrite record_line_body, mem_app.
  now rewrite (single_line_CR _ (record_body_single_line _ Hh Hip)).
Qed.

(** The text of the zone file after a record was appended to [raw]. *)
Lemma text_added args raw w :
  single_line (add_hostname args) = true ->
  single_line (add_ip args) = true ->
  text ZONE_FILE (added args raw w)
  = Some (universal_newlines raw ++ RecordManagement.record_line args).
Proof.
  intros Hh Hip. unfold text, added. simpl. f_equal.
  rewrite universal_newlines_app.
  - now rewrite (universal_newlines_id _ (record_line_no_CR _ Hh Hip)).
  - intros s'. apply record_line_not_LF. now apply single_line_LF.
Qed.

(** Its lines, when the text before ended with a newline. *)
Lemma readlines_added args data :
  terminated data = true ->
  single_line (add_hostname args) = true ->
  single_line (add_ip args) = true ->
  readlines (data ++ RecordManagement.record_line args)
  = readlines data ++ [RecordManagement.record_line args].
Proof.
  intros Ht Hh Hip. rewrite record_line_body.
  apply readlines_app_line; [exact Ht |].
  apply single_line_LF. now apply record_body_single_line.
Qed.

Lemma terminated_added args data :
  terminated (data ++ RecordManagement.record_line args) = true.
Proof. rewrite record_line_body, app_assoc. apply terminated_app_LF. Qed.

(** The lines of the zone file after a deletion went through. *)
Lemma zone_lines_deleted hostname data w :
  mem CR data = false ->
  zone_lines (deleted hostname data w) = lines_without hostname (readlines data).
Proof.
  intros H. unfold zone_lines, text, deleted, writelines, lines_without. simpl.
  rewrite universal_newlines_id.
  - apply readlines_filter.
  - apply mem_concat_filter. now rewrite concat_readlines.
Qed.

(** Deleting a hostname that passes the checks and heads a line. *)
Lemma delete_record_deleted hostname w data :
  strip hostname = hostname ->
  hostname <> [] ->
  existsb (str_eqb hostname) RecordManagement.forbidden = false ->
  text ZONE_FILE w = Some data ->
  lines_of hostname (readlines data) <> [] ->
  RecordManagement.delete_record (mkDelete hostname) w
  = (Return tt, deleted hostname data w).
Proof.
  intros Hstrip Hne Hres Hdata Hsome. rewrite delete_record_run.
  cbv zeta. change (delete_hostname (mkDelete hostname)) with hostname.
  rewrite Hstrip. apply str_eqb_neq in Hne. rewrite Hne, Hres, Hdata.
  destruct (lines_of hostname (readlines data)); [contradiction | reflexivity].
Qed.

Lemma lines_of_app hostname a b :
  lines_of hostname (a ++ b) = lines_of hostname a ++ lines_of hostname b.
Proof. apply filter_app. Qed.

Lemma lines_without_app hostname a b :
  lines_without hostname (a ++ b)
  = lines_without hostname a ++ lines_without hostname b.
Proof. apply filter_app. Qed.

Lemma lines_of_record args :
  lines_of (add_hostname args) [RecordManagement.record_line args]
  = [RecordManagement.record_line args].
Proof. unfold lines_of. simpl. now rewrite record_line_startswith. Qed.

Lemma lines_without_record args :
  lines_without (add_hostname args) [RecordManagement.record_line args] = [].
Proof. unfold lines_without. simpl. now rewrite record_line_startswith. Qed.

(** * Round trip *)

(** Deleting the hostname of a record that was just appended to a zone
    text in which it was fresh. *)
Lemma delete_after_add (args : AddRecordArgs) (w : World) (z : str) :
  terminated z = true ->
  mem CR z = false ->
  strip (add_hostname args) = add_hostname args ->
  add_hostname args <> [] ->
  existsb (str_eqb (add_hostname args)) RecordManagement.forbidden = false ->
  single_line (add_hostname args) = true ->
  single_line (add_ip args) = true ->
  lines_of (add_hostname args) (readlines z) = [] ->
  RecordManagement.delete_record (mkDelete (add_hostname args)) (added args z w)
  = (Return tt,
     mkWorld (corefile w) (Some z)
       (stdout w ++ [L "Added A Record: " ++ add_hostname args ++ L " -> "
                       ++ add_ip args;
                     L "Deleted A Record: " ++ add_hostname args])
       (S (S (restarts w)))).
Proof.
  intros Hterm Hcr Hstrip Hne Hres Hh Hip Hfresh.
  pose proof (text_added args z w Hh Hip) as Htext.
  rewrite (universal_newlines_id _ Hcr) in Htext.
  assert (readlines (z ++ RecordManagement.record_line args)
          = readlines z ++ [RecordManagement.record_line args]) as Hlines
    by now apply readlines_added.
  rewrite (delete_record_deleted _ _ _ Hstrip Hne Hres Htext).
  - unfold deleted. rewrite Hlines, lines_without_app, lines_without_record.
    rewrite (lines_without_all _ _ Hfresh), app_nil_r.
    unfold writelines. rewrite concat_readlines.
    unfold added. simpl. now rewrite <- app_assoc.
  - rewrite Hlines, lines_of_app, lines_of_record, Hfresh. discriminate.
Qed.

(** C2, as amended: on a zone file that ends with a newline (or is empty)
    and has no carriage return, adding a record whose hostname is trimmed,
    non-empty, not reserved, on one line and not yet the head of a line,
    with a one-line address, and then deleting that hostname, leaves
    exactly the content from before the add; both calls succeed, print
    their confirmation and restart CoreDNS. *)
Theorem add_then_delete_restores (args : AddRecordArgs) (w : World) (z : str) :
  zonefile w = Some z ->
  terminated z = true ->
  mem CR z = false ->
  strip (add_hostname args) = add_hostname args ->
  add_hostname args <> [] ->
  existsb (str_eqb (add_hostname args)) RecordManagement.forbidden = false ->
  single_line (add_hostname args) = true ->
  single_line (add_ip args) = true ->
  lines_of (add_hostname args) (readlines z) = [] ->
  add_then_delete args w
  = (Return tt,
     mkWorld (corefile w) (Some z)
       (stdout w ++ [L "Added A Record: " ++ add_hostname args ++ L " -> "
                       ++ add_ip args;
                     L "Deleted A Record: " ++ add_hostname args])
       (S (S (restarts w)))).
Proof.
  intros Hz Hterm Hcr Hstrip Hne Hres Hh Hip Hfresh.
  unfold add_then_delete, bind. rewrite add_record_run, Hz.
  now apply delete_after_add.
Qed.

Lemma add_then_delete_restores_witness :
  add_then_delete web1 host10_world
  = (Return tt,
     mkWorld None (Some (L "host10 300 IN A 10.0.0.2" ++ [LF]))
       [L "Added A Record: " ++ L "web1" ++ L " -> " ++ L "10.0.0.5";
        L "Deleted A Record: " ++ L "web1"]
       2).
Proof.
  apply (add_then_delete_restores web1 host10_world
           (L "host10 300 IN A 10.0.0.2" ++ [LF]));
    try reflexivity.
  discriminate.
Defined.

(** C2, as stated, fails even up to the order of lines: when the zone file
    already holds a line for the hostname, the delete removes that line
    too. *)
Lemma add_then_delete_counterexample :
  ~ (forall (args : AddRecordArgs) (w : World),
       Permutation (zone_lines (exec (add_then_delete args) w)) (zone_lines w)).
Proof.
  intros H.
  specialize (H (mkAdd (L "web1") 300 (L "10.0.0.6")) web1_world).
  vm_compute in H. apply Permutation_nil in H. discriminate H.
Qed.

(** * Prefix safety *)

Lemma lines_of_lines_without hostname ls :
  lines_of hostname (lines_without hostname ls) = [].
Proof.
  unfold lines_of, lines_without. induction ls as [| l ls IH]; [reflexivity |].
  cbn [filter]. destruct (startswith (hostname ++ L " ") l) eqn:E; cbn [negb filter].
  - exact IH.
  - now rewrite E.
Qed.

Lemma host10_not_host1 ttl ip :
  startswith (L "host1" ++ L " ") (RecordManagement.record_line (host10 ttl ip))
  = false.
Proof. reflexivity. Qed.

Lemma lines_without_host1_host10 ttl ip :
  lines_without (L "host1") [RecordManagement.record_line (host10 ttl ip)]
  = [RecordManagement.record_line (host10 ttl ip)].
Proof. unfold lines_without. cbn [filter]. now rewrite host10_not_host1. Qed.

Lemma lines_of_host1_host10 ttl ip :
  lines_of (L "host1") [RecordManagement.record_line (host10 ttl ip)] = [].
Proof. unfold lines_of. cbn [filter]. now rewrite host10_not_host1. Qed.

Lemma lines_without_host1_host1 ttl ip :
  lines_without (L "host1") [RecordManagement.record_line (host1 ttl ip)] = [].
Proof. exact (lines_without_record (host1 ttl ip)). Qed.

Lemma lines_of_host1_host1 ttl ip :
  lines_of (L "host1") [RecordManagement.record_line (host1 ttl ip)]
  = [RecordManagement.record_line (host1 ttl ip)].
Proof. exact (lines_of_record (host1 ttl ip)). Qed.

Lemma lines_of_host10_without_host1 ls :
  lines_of (L "host10") (lines_without (L "host1") ls)
  = lines_of (L "host10") ls.
Proof.
  unfold lines_of, lines_without.
  induction ls as [| l ls IH]; [reflexivity |].
  cbn [filter].
  destruct (startswith (L "host1" ++ L " ") l) eqn:E1; cbn [negb filter].
  - rewrite IH.
    destruct (startswith (L "host10" ++ L " ") l) eqn:E10; [| reflexivity].
    apply startswith_prefix in E1. destruct E1 as [t1 ->].
    discriminate E10.
  - now rewrite IH.
Qed.

(** C3, as amended: from a zone file whose text ends with a newline (or is
    empty),
    after adding host1 and host10 with one-line addresses, deleting host1
    succeeds and leaves the lines that do not start with "host1 " followed
    by the host10 line, unaltered and last: the line added for host1 is
    gone and the line of host10 stays. *)
Theorem delete_host1_keeps_host10
    (w : World) (data : str) (ttl1 : Z) (ip1 : str) (ttl10 : Z) (ip10 : str) :
  text ZONE_FILE w = Some data ->
  terminated data = true ->
  single_line ip1 = true ->
  single_line ip10 = true ->
  let scenario := host1_host10_scenario ttl1 ip1 ttl10 ip10 in
  let kept :=
    lines_without (L "host1") (readlines data)
    ++ [RecordManagement.record_line (host10 ttl10 ip10)] in
  result scenario w = Return tt
  /\ zonefile (exec scenario w) = Some (writelines kept)
  /\ zone_lines (exec scenario w) = kept
  /\ lines_of (L "host1") (zone_lines (exec scenario w)) = []
  /\ lines_of (L "host10") (zone_lines (exec scenario w))
     = lines_of (L "host10") (readlines data)
       ++ [RecordManagement.record_line (host10 ttl10 ip10)].
Proof.
  intros Hdata Hterm Hip1 Hip10 scenario kept.
  assert (exists raw, zonefile w = Some raw /\ universal_newlines raw = data)
    as [raw [Hraw Hun]].
  { unfold text, option_map in Hdata. simpl in Hdata.
    destruct (zonefile w) as [raw |]; [| discriminate].
    injection Hdata as <-. now exists raw. }
  set (a1 := host1 ttl1 ip1). set (a10 := host10 ttl10 ip10).
  set (r1 := RecordManagement.record_line a1).
  set (r10 := RecordManagement.record_line a10).
  set (w1 := added a1 raw w).
  set (w2 := added a10 (raw ++ r1) w1).
  assert (text ZONE_FILE w1 = Some (data ++ r1)) as Ht1.
  { unfold w1. rewrite text_added, Hun; [reflexivity | reflexivity | exact Hip1]. }
  assert (text ZONE_FILE w2 = Some ((data ++ r1) ++ r10)) as Ht2.
  { unfold w2. rewrite text_added; [| reflexivity | exact Hip10].
    unfold text, w1, added in Ht1.
    cbn [content zonefile option_map] in Ht1. injection Ht1 as E.
    fold r1 in E. now rewrite E. }
  assert (readlines ((data ++ r1) ++ r10) = (readlines data ++ [r1]) ++ [r10])
    as Hlines.
  { unfold r10. rewrite readlines_added;
      [| apply terminated_added | reflexivity | exact Hip10].
    unfold r1. rewrite readlines_added;
      [reflexivity | exact Hterm | reflexivity | exact Hip1]. }
  assert (lines_without (L "host1") (readlines ((data ++ r1) ++ r10)) = kept)
    as Hkept.
  { rewrite Hlines, !lines_without_app. unfold r1, r10, a1, a10.
    now rewrite lines_without_host1_host1, lines_without_host1_host10, app_nil_r. }
  assert (scenario w = (Return tt, deleted (L "host1") ((data ++ r1) ++ r10) w2))
    as Hrun.
  { unfold scenario, host1_host10_scenario.
    unfold bind at 1. rewrite add_record_run, Hraw. fold a1 w1.
    unfold bind at 1. rewrite add_record_run.
    change (zonefile w1) with (Some (raw ++ r1)). fold a10 w2.
    apply delete_record_deleted; try reflexivity; try discriminate.
    - exact Ht2.
    - rewrite Hlines, !lines_of_app. unfold r1, a1.
      rewrite lines_of_host1_host1.
      destruct (lines_of (L "host1") (readlines data)); discriminate. }
  assert (zone_lines (exec scenario w) = kept) as Hzl.
  { unfold exec. rewrite Hrun. simpl snd.
    rewrite zone_lines_deleted; [exact Hkept |].
    exact (text_no_CR _ _ _ Ht2). }
  repeat split.
  - unfold result. now rewrite Hrun.
  - unfold exec. rewrite Hrun. unfold deleted. cbn [snd zonefile]. now rewrite Hkept.
  - exact Hzl.
  - rewrite Hzl. unfold kept.
    now rewrite lines_of_app, lines_of_lines_without, lines_of_host1_host10.
  - rewrite Hzl. unfold kept. rewrite lines_of_app, lines_of_host10_without_host1.
    f_equal.
Qed.

Lemma delete_host1_keeps_host10_witness :
  let scenario := host1_host10_scenario 300 (L "10.0.0.1") 300 (L "10.0.0.2") in
  let kept :=
    lines_without (L "host1")
      (readlines (zone_text (L "sector1.orbitlab.internal")))
    ++ [RecordManagement.record_line (host10 300 (L "10.0.0.2"))] in
  result scenario sector1_zone_world = Return tt
  /\ zonefile (exec scenario sector1_zone_world) = Some (writelines kept)
  /\ zone_lines (exec scenario sector1_zone_world) = kept
  /\ lines_of (L "host1") (zone_lines (exec scenario sector1_zone_world)) = []
  /\ lines_of (L "host10") (zone_lines (exec scenario sector1_zone_world))
     = lines_of (L "host10")
         (readlines (zone_text (L "sector1.orbitlab.internal")))
       ++ [RecordManagement.record_line (host10 300 (L "10.0.0.2"))].
Proof.
  apply (delete_host1_keeps_host10 sector1_zone_world
           (zone_text (L "sector1.orbitlab.internal"))
           300 (L "10.0.0.1") 300 (L "10.0.0.2"));
    reflexivity.
Defined.

(** * The fresh zone file *)

Lemma complete_lines_wf bodies :
  Forall (fun b => mem LF b = false) bodies ->
  lines_wf (map (fun b => b ++ [LF]) bodies).
Proof.
  induction 1 as [| b bs Hb Hbs IH]; simpl; now constructor.
Qed.

Lemma mem_concat c (ls : list str) :
  Forall (fun l => mem c l = false) ls -> mem c (concat ls) = false.
Proof.
  induction 1 as [| l ls Hl Hls IH]; [reflexivity |].
  simpl. now rewrite mem_app, Hl, IH.
Qed.

Section FreshZone.

Variable zone_name : str.
Hypothesis one_line : single_line zone_name = true.

Lemma zone_text_physical :
  zone_text zone_name = concat (physical_lines zone_name).
Proof.
  unfold zone_text, writelines, Init.zone_file_lines, physical_lines,
    physical_bodies.
  cbn [map concat]. now rewrite <- !app_assoc.
Qed.

(** A character that is neither in the zone name nor in the fixed text is
    in no line. *)
Lemma physical_bodies_without c :
  mem c zone_name = false ->
  mem c (concat (physical_bodies [])) = false ->
  Forall (fun b => mem c b = false) (physical_bodies zone_name).
Proof.
  intros Hz Hc. unfold physical_bodies.
  cbn [physical_bodies concat app L list_ascii_of_string mem existsb] in Hc.
  repeat (apply orb_false_iff in Hc; destruct Hc as [? Hc]).
  repeat constructor; rewrite ?mem_app, ?Hz;
    cbn [L list_ascii_of_string mem existsb];
    repeat match goal with H : Ascii.eqb c _ = false |- _ => rewrite H end;
    reflexivity.
Qed.

Lemma readlines_zone_text :
  readlines (zone_text zone_name) = physical_lines zone_name.
Proof.
  rewrite zone_text_physical. apply readlines_concat.
  apply complete_lines_wf, physical_bodies_without;
    [now apply single_line_LF | reflexivity].
Qed.

Lemma zone_text_no_CR : mem CR (zone_text zone_name) = false.
Proof.
  rewrite zone_text_physical. apply mem_concat.
  unfold physical_lines. apply Forall_map.
  pose proof (physical_bodies_without CR (single_line_CR _ one_line) eq_refl)
    as F.
  rewrite Forall_forall in *. intros b Hb.
  now rewrite mem_app, (F b Hb).
Qed.

Lemma zone_text_terminated : terminated (zone_text zone_name) = true.
Proof.
  rewrite zone_text_physical. apply terminated_concat.
  unfold physical_lines. apply Forall_map, Forall_forall.
  intros b _. apply terminated_app_LF.
Qed.

Lemma web1_not_in_fresh_zone :
  lines_of (L "web1") (physical_lines zone_name) = [].
Proof. reflexivity. Qed.

(** The SOA entry spans three lines: the four structural strings are six
    lines for [readlines]. *)
Lemma physical_line_count : length (readlines (zone_text zone_name)) = 6.
Proof. now rewrite readlines_zone_text. Qed.

End FreshZone.

Lemma delete_record_not_found hostname w data :
  strip hostname = hostname ->
  hostname <> [] ->
  existsb (str_eqb hostname) RecordManagement.forbidden = false ->
  text ZONE_FILE w = Some data ->
  lines_of hostname (readlines data) = [] ->
  RecordManagement.delete_record (mkDelete hostname) w
  = (Return tt, printed (L "Record not found: " ++ hostname) w).
Proof.
  intros Hstrip Hne Hres Hdata Hnone. rewrite delete_record_run.
  cbv zeta. change (delete_hostname (mkDelete hostname)) with hostname.
  rewrite Hstrip. apply str_eqb_neq in Hne.
  now rewrite Hne, Hres, Hdata, Hnone.
Qed.

(** * Example scenario *)

Lemma zone_lines_of_file w z :
  zonefile w = Some z -> mem CR z = false -> zone_lines w = readlines z.
Proof.
  intros Hz Hcr. unfold zone_lines, text. cbn [content]. rewrite Hz.
  cbn [option_map]. now rewrite (universal_newlines_id _ Hcr).
Qed.

(** The lines of the zone file after a record was appended, when the file
    was absent or its text ended with a newline. *)
Lemma zone_lines_added args w :
  (forall data, text ZONE_FILE w = Some data -> terminated data = true) ->
  single_line (add_hostname args) = true ->
  single_line (add_ip args) = true ->
  zone_lines (exec (RecordManagement.add_record args) w)
  = zone_lines w ++ [RecordManagement.record_line args].
Proof.
  intros Hterm Hh Hip. unfold exec. rewrite add_record_run. cbn [snd].
  unfold zone_lines at 1. rewrite (text_added _ _ _ Hh Hip).
  unfold zone_lines, text. cbn [content].
  destruct (zonefile w) as [raw |] eqn:Hraw; cbn [option_map].
  - apply readlines_added; try assumption.
    apply Hterm. unfold text. cbn [content]. now rewrite Hraw.
  - now apply (readlines_added args []).
Qed.

(** C6, as amended: created on an absent file with a one-line zone name,
    the zone file has six lines, the four structural entries with the SOA
    entry on three of them; adding web1 appends the line
    "web1 300 IN A 10.0.0.5\n" as a seventh; deleting web1 gives back the
    six lines and the content creation wrote; deleting web1 again prints
    "Record not found: web1" and changes nothing else. *)
Theorem example_scenario (zone_name : str) (w : World) :
  zonefile w = None ->
  single_line zone_name = true ->
  let w1 := scenario_created zone_name w in
  let w2 := scenario_added zone_name w in
  let w3 := scenario_deleted zone_name w in
  let record := L "web1 300 IN A 10.0.0.5" ++ [LF] in
  zone_lines w1 = physical_lines zone_name
  /\ length (zone_lines w1) = 6
  /\ zone_lines w2 = physical_lines zone_name ++ [record]
  /\ length (zone_lines w2) = 7
  /\ zone_lines w3 = physical_lines zone_name
  /\ length (zone_lines w3) = 6
  /\ zonefile w3 = zonefile w1
  /\ RecordManagement.delete_record (mkDelete (L "web1")) w3
     = (Return tt, printed (L "Record not found: web1") w3).
Proof.
  intros Habs Hzn w1 w2 w3 record.
  assert (w1 = mkWorld (corefile w) (Some (zone_text zone_name))
                 (stdout w) (restarts w)) as E1.
  { unfold w1, scenario_created, exec.
    now rewrite (create_on_absent _ _ Habs). }
  assert (zone_lines w1 = physical_lines zone_name) as L1.
  { rewrite (zone_lines_of_file w1 (zone_text zone_name));
      [now apply readlines_zone_text | now rewrite E1 |
       now apply zone_text_no_CR]. }
  assert (zone_lines w2 = physical_lines zone_name ++ [record]) as L2.
  { unfold w2, scenario_added. fold (scenario_created zone_name w). fold w1.
    rewrite zone_lines_added, L1; try reflexivity.
    intros data Hd.
    assert (text ZONE_FILE w1 = Some (zone_text zone_name)) as Ht1.
    { rewrite E1. unfold text. cbn [content zonefile option_map].
      now rewrite (universal_newlines_id _ (zone_text_no_CR _ Hzn)). }
    assert (data = zone_text zone_name) as -> by congruence.
    apply zone_text_terminated. }
  assert (w2 = added web1 (zone_text zone_name) w1) as E2.
  { unfold w2, scenario_added, exec. fold (scenario_created zone_name w).
    fold w1. rewrite add_record_run, E1. reflexivity. }
  assert (lines_of (L "web1") (readlines (zone_text zone_name)) = []) as Hfresh.
  { rewrite (readlines_zone_text _ Hzn). apply web1_not_in_fresh_zone. }
  assert (w3 = mkWorld (corefile w1) (Some (zone_text zone_name))
                 (stdout w1 ++ [L "Added A Record: web1 -> 10.0.0.5";
                                L "Deleted A Record: web1"])
                 (S (S (restarts w1)))) as E3.
  { unfold w3, scenario_deleted, exec. fold (scenario_added zone_name w).
    fold w2. rewrite E2.
    change (mkDelete (L "web1")) with (mkDelete (add_hostname web1)).
    rewrite (delete_after_add web1 w1 (zone_text zone_name));
      try reflexivity.
    - apply zone_text_terminated.
    - now apply zone_text_no_CR.
    - discriminate.
    - exact Hfresh. }
  assert (zone_lines w3 = physical_lines zone_name) as L3.
  { rewrite (zone_lines_of_file w3 (zone_text zone_name));
      [now apply readlines_zone_text | now rewrite E3 |
       now apply zone_text_no_CR]. }
  repeat split.
  - exact L1.
  - now rewrite L1.
  - exact L2.
  - rewrite L2, length_app. reflexivity.
  - exact L3.
  - now rewrite L3.
  - now rewrite E3, E1.
  - rewrite E3.
    apply (delete_record_not_found _ _ (zone_text zone_name));
      try reflexivity.
    + discriminate.
    + unfold text. cbn [content zonefile option_map].
      now rewrite (universal_newlines_id _ (zone_text_no_CR _ Hzn)).
    + exact Hfresh.
Qed.

Lemma example_scenario_witness :
  let zone_name := L "sector1.orbitlab.internal" in
  let w1 := scenario_created zone_name empty_world in
  let w2 := scenario_added zone_name empty_world in
  let w3 := scenario_deleted zone_name empty_world in
  let record := L "web1 300 IN A 10.0.0.5" ++ [LF] in
  zone_lines w1 = physical_lines zone_name
  /\ length (zone_lines w1) = 6
  /\ zone_lines w2 = physical_lines zone_name ++ [record]
  /\ length (zone_lines w2) = 7
  /\ zone_lines w3 = physical_lines zone_name
  /\ length (zone_lines w3) = 6
  /\ zonefile w3 = zonefile w1
  /\ RecordManagement.delete_record (mkDelete (L "web1")) w3
     = (Return tt, printed (L "Record not found: web1") w3).
Proof.
  apply (example_scenario (L "sector1.orbitlab.internal") empty_world);
    reflexivity.
Defined.

(** C6, as stated, fails: the SOA entry is written on three lines, so the
    fresh zone file has six lines, not four. *)
Lemma example_scenario_counterexample :
  ~ (forall (zone_name : str) (w : World),
       zonefile w = None ->
       length (zone_lines (scenario_created zone_name w)) = 4).
Proof.
  intros H.
  specialize (H (L "sector1.orbitlab.internal") empty_world eq_refl).
  vm_compute in H. discriminate H.
Qed.

(** * Uniqueness of hostnames *)

Lemma valid_hostname_mem c h :
  valid_hostname h = true -> isspace c = true -> mem c h = false.
Proof.
  unfold valid_hostname. intros H Hc. apply andb_true_iff in H.
  destruct H as [_ H]. apply mem_false. intros Hin.
  rewrite forallb_forall in H. specialize (H c Hin).
  rewrite Hc in H. discriminate H.
Qed.

Lemma valid_hostname_single_line h :
  valid_hostname h = true -> single_line h = true.
Proof.
  intros H. unfold single_line.
  now rewrite (valid_hostname_mem LF _ H eq_refl),
    (valid_hostname_mem CR _ H eq_refl).
Qed.

(** Two tokens without space that head the same text are equal. *)
Lemma token_unique k h rest :
  mem SP k = false -> mem SP h = false ->
  startswith (k ++ [SP]) (h ++ SP :: rest) = true -> k = h.
Proof.
  revert h. induction k as [| c k IH]; intros [| d h] Hk Hh H.
  - reflexivity.
  - cbn [app startswith] in H. apply andb_true_iff in H. destruct H as [H _].
    rewrite mem_cons, H in Hh. discriminate Hh.
  - cbn [app startswith] in H. apply andb_true_iff in H. destruct H as [H _].
    rewrite mem_cons, Ascii.eqb_sym, H in Hk. discriminate Hk.
  - cbn [app startswith] in H. apply andb_true_iff in H. destruct H as [Hc H].
    apply Ascii.eqb_eq in Hc. subst d.
    rewrite mem_cons in Hk, Hh.
    apply orb_false_iff in Hk. apply orb_false_iff in Hh.
    f_equal. apply (IH h); tauto.
Qed.

Lemma filter_filter_length {A} (f g : A -> bool) l :
  length (filter f (filter g l)) <= length (filter f l).
Proof.
  induction l as [| x l IH]; [apply le_n |]. cbn [filter].
  destruct (g x), (f x) eqn:E; cbn [filter length]; rewrite ?E;
    cbn [length]; lia.
Qed.

Lemma physical_lines_unique zone_name h :
  valid_hostname h = true ->
  length (lines_of h (physical_lines zone_name)) <= 1.
Proof.
  intros Hv. destruct h as [| c h]; [discriminate Hv |].
  assert (Ascii.eqb c SP = false) as Hsp.
  { pose proof (valid_hostname_mem SP _ Hv eq_refl) as H.
    rewrite mem_cons in H. apply orb_false_iff in H.
    now rewrite Ascii.eqb_sym. }
  unfold lines_of, physical_lines, physical_bodies.
  cbn [map filter app L list_ascii_of_string startswith].
  change " "%char with SP. rewrite Hsp. cbn [andb].
  destruct (Ascii.eqb_spec c "$") as [-> | _].
  { cbn [andb Ascii.eqb Bool.eqb].
    match goal with |- context [if ?b then _ else _] => destruct b end;
      cbn [length]; lia. }
  destruct (Ascii.eqb_spec c "@") as [-> | _].
  { cbn [andb Ascii.eqb Bool.eqb].
    match goal with |- context [if ?b then _ else _] => destruct b end;
      cbn [length]; lia. }
  destruct (Ascii.eqb_spec c ")") as [-> | _].
  { cbn [andb Ascii.eqb Bool.eqb].
    match goal with |- context [if ?b then _ else _] => destruct b end;
      cbn [length]; lia. }
  cbn [andb].
  match goal with |- context [if ?b then _ else _] => destruct b end;
    cbn [length]; lia.
Qed.

Lemma zone_invariant_unique w : zone_invariant w -> unique_hostnames w.
Proof.
  intros [z [Hz [_ [Hcr Hu]]]] h Hh.
  rewrite (zone_lines_of_file _ _ Hz Hcr). now apply Hu.
Qed.

Lemma zone_invariant_create zone_name w :
  zonefile w = None -> single_line zone_name = true ->
  zone_invariant (exec (Init.__create_zone_file__ zone_name) w).
Proof.
  intros Habs Hzn. unfold exec. rewrite (create_on_absent _ _ Habs).
  exists (zone_text zone_name). repeat split.
  - apply zone_text_terminated.
  - now apply zone_text_no_CR.
  - intros h Hh. rewrite (readlines_zone_text _ Hzn).
    now apply physical_lines_unique.
Qed.

Lemma zone_invariant_add args w :
  zone_invariant w -> fresh_record w args ->
  zone_invariant (exec (RecordManagement.add_record args) w).
Proof.
  intros [z [Hz [Hterm [Hcr Hu]]]] [Hv [Hip Hfresh]].
  pose proof (valid_hostname_single_line _ Hv) as Hh.
  rewrite (zone_lines_of_file _ _ Hz Hcr) in Hfresh.
  unfold exec. rewrite add_record_run, Hz.
  exists (z ++ RecordManagement.record_line args). repeat split.
  - apply terminated_added.
  - now rewrite mem_app, Hcr, record_line_no_CR.
  - intros k Hk. rewrite (readlines_added _ _ Hterm Hh Hip), lines_of_app.
    rewrite length_app. unfold lines_of at 2. cbn [filter].
    destruct (startswith (k ++ L " ") (RecordManagement.record_line args))
      eqn:E.
    + assert (k = add_hostname args) as ->.
      { apply (token_unique _ _
                 (str_of_int (add_ttl args) ++ L " IN A " ++ add_ip args
                    ++ [LF])).
        - now apply valid_hostname_mem.
        - now apply valid_hostname_mem.
        - exact E. }
      rewrite Hfresh. cbn [length]. lia.
    + specialize (Hu k Hk). cbn [length]. lia.
Qed.

Lemma zone_invariant_delete args w :
  zone_invariant w ->
  zone_invariant (exec (RecordManagement.delete_record args) w).
Proof.
  intros Hinv. unfold exec. rewrite delete_record_run. cbv zeta.
  destruct (str_eqb (strip (delete_hostname args)) []);
    [exact Hinv |].
  destruct (existsb _ RecordManagement.forbidden); [exact Hinv |].
  destruct Hinv as [z [Hz [Hterm [Hcr Hu]]]].
  assert (text ZONE_FILE w = Some z) as Htext.
  { unfold text. cbn [content]. rewrite Hz. cbn [option_map].
    now rewrite (universal_newlines_id _ Hcr). }
  rewrite Htext.
  destruct (lines_of (strip (delete_hostname args)) (readlines z)).
  - exists z. now repeat split.
  - eexists. split; [reflexivity |]. unfold writelines, lines_without.
    repeat split.
    + now apply terminated_filter.
    + apply mem_concat_filter. now rewrite concat_readlines.
    + intros k Hk. rewrite readlines_filter. unfold lines_of.
      etransitivity; [apply filter_filter_length |]. now apply Hu.
Qed.

(** Deletion never creates a second line for a hostname, from any state. *)
Lemma delete_preserves_unique args w :
  unique_hostnames w ->
  unique_hostnames (exec (RecordManagement.delete_record args) w).
Proof.
  intros Hu. unfold exec. rewrite delete_record_run. cbv zeta.
  destruct (str_eqb (strip (delete_hostname args)) []); [exact Hu |].
  destruct (existsb _ RecordManagement.forbidden); [exact Hu |].
  destruct (text ZONE_FILE w) as [data |] eqn:Htext; [| exact Hu].
  destruct (lines_of (strip (delete_hostname args)) (readlines data));
    [exact Hu |].
  intros k Hk. cbn [snd].
  rewrite (zone_lines_deleted _ _ _ (text_no_CR _ _ _ Htext)).
  unfold lines_of, lines_without.
  etransitivity; [apply filter_filter_length |].
  specialize (Hu k Hk). unfold zone_lines in Hu. now rewrite Htext in Hu.
Qed.

(** A fresh record keeps hostnames unique when it lands on a line of its
    own. *)
Lemma add_preserves_unique args w :
  (forall data, text ZONE_FILE w = Some data -> terminated data = true) ->
  unique_hostnames w ->
  fresh_record w args ->
  unique_hostnames (exec (RecordManagement.add_record args) w).
Proof.
  intros Hterm Hu [Hv [Hip Hfresh]] k Hk.
  rewrite (zone_lines_added _ _ Hterm (valid_hostname_single_line _ Hv) Hip).
  rewrite lines_of_app, length_app. unfold lines_of at 2. cbn [filter].
  destruct (startswith (k ++ L " ") (RecordManagement.record_line args)) eqn:E.
  - assert (k = add_hostname args) as ->.
    { apply (token_unique _ _
               (str_of_int (add_ttl args) ++ L " IN A " ++ add_ip args
                  ++ [LF])).
      - now apply valid_hostname_mem.
      - now apply valid_hostname_mem.
      - exact E. }
    rewrite Hfresh. cbn [length]. lia.
  - specialize (Hu k Hk). cbn [length]. lia.
Qed.

(** C5, as amended: creation on an absent file (with a one-line zone name)
    establishes that no hostname heads two lines of the zone file; deletion
    preserves it from any state; an add preserves it when the zone file is
    absent or its text is empty or ends with a newline, its hostname is a
    token that heads no line yet and its address is one line.  Hence it
    holds in every state reached by creation, such adds, and deletions. *)
Theorem unique_hostnames_when_adds_are_fresh :
  (forall w, reachable_fresh w -> unique_hostnames w)
  /\ (forall args w,
        unique_hostnames w ->
        unique_hostnames (exec (RecordManagement.delete_record args) w))
  /\ (forall args w,
        (forall data, text ZONE_FILE w = Some data -> terminated data = true) ->
        unique_hostnames w ->
        fresh_record w args ->
        unique_hostnames (exec (RecordManagement.add_record args) w))
  /\ (forall zone_name w,
        zonefile w = None ->
        single_line zone_name = true ->
        unique_hostnames (exec (Init.__create_zone_file__ zone_name) w)).
Proof.
  split; [| split; [| split]].
  - intros w H. apply zone_invariant_unique.
    induction H as [w zone_name Habs Hzn | w args H IH Hfresh | w args H IH].
    + now apply zone_invariant_create.
    + now apply zone_invariant_add.
    + now apply zone_invariant_delete.
  - intros args w. apply delete_preserves_unique.
  - intros args w. apply add_preserves_unique.
  - intros zone_name w Habs Hzn.
    now apply zone_invariant_unique, zone_invariant_create.
Qed.

(** C5, as stated, fails: nothing stops a second add of the same hostname,
    and the reached state has two lines for it. *)
Lemma unique_hostnames_counterexample :
  reachable duplicated_world /\ ~ unique_hostnames duplicated_world.
Proof.
  split.
  - unfold duplicated_world. apply reach_add, reach_add, reach_create.
    reflexivity.
  - intros H. specialize (H (L "web1") eq_refl).
    vm_compute in H. lia.
Qed.

Lemma unique_hostnames_when_adds_are_fresh_witness :
  unique_hostnames
    (exec (RecordManagement.add_record web1)
       (exec (Init.__create_zone_file__ (L "sector1.orbitlab.internal"))
          empty_world)).
Proof.
  apply (proj1 unique_hostnames_when_adds_are_fresh).
  apply fresh_add; [apply fresh_create |]; repeat split; reflexivity.
Defined.

(** * Replacement of markers *)

Section Replace.

Variable new : str.

Lemma replace_from_skip k old s :
  replace_from k old new s = replace_from 0 old new (skipn k s).
Proof.
  revert k. induction s as [| c s IH]; intros [| k]; try reflexivity.
  cbn [replace_from skipn]. apply IH.
Qed.

Lemma replace_from_hit old s :
  old <> [] ->
  replace_from 0 old new (old ++ s) = new ++ replace_from 0 old new s.
Proof.
  intros Hne. destruct old as [| o t]; [contradiction |].
  change ((o :: t) ++ s) with (o :: t ++ s). cbn [replace_from].
  change (o :: t ++ s) with ((o :: t) ++ s). rewrite startswith_app.
  replace (length (o :: t) - 1) with (length t) by (cbn [length]; lia).
  rewrite replace_from_skip. f_equal. f_equal. clear Hne.
  induction t as [| x t IH]; [reflexivity | exact IH].
Qed.

Lemma replace_from_no_start old a b :
  no_start old a b = true ->
  replace_from 0 old new (a ++ b) = a ++ replace_from 0 old new b.
Proof.
  induction a as [| c a IH]; intros H; [reflexivity |].
  cbn [no_start] in H. apply andb_true_iff in H. destruct H as [Hc Ha].
  apply negb_true_iff in Hc.
  change ((c :: a) ++ b) with (c :: a ++ b) in *. cbn [replace_from].
  rewrite Hc, (IH Ha). reflexivity.
Qed.

(** Replacing the single occurrence of a marker. *)
Lemma replace_once old a b :
  old <> [] ->
  no_start old a (old ++ b) = true ->
  no_start old b [] = true ->
  replace old new (a ++ old ++ b) = a ++ new ++ b.
Proof.
  intros Hne Ha Hb. unfold replace. destruct old as [| o t]; [contradiction |].
  rewrite (replace_from_no_start _ _ _ Ha), (replace_from_hit _ _ Hne).
  rewrite <- (app_nil_r b) at 1.
  rewrite (replace_from_no_start _ _ _ Hb). now rewrite app_nil_r.
Qed.

End Replace.

Lemma no_start_app old a1 a2 b :
  no_start old (a1 ++ a2) b = no_start old a1 (a2 ++ b) && no_start old a2 b.
Proof.
  induction a1 as [| c a1 IH]; [reflexivity |].
  change ((c :: a1) ++ a2) with (c :: a1 ++ a2). cbn [no_start].
  rewrite IH, andb_assoc.
  change ((c :: a1 ++ a2) ++ b) with (c :: (a1 ++ a2) ++ b).
  now rewrite <- app_assoc.
Qed.

(** No occurrence starts where the first character of the marker is not. *)
Lemma no_start_head o t a b :
  mem o a = false -> no_start (o :: t) a b = true.
Proof.
  induction a as [| c a IH]; intros H; [reflexivity |].
  rewrite mem_cons in H. apply orb_false_iff in H. destruct H as [Hc Ha].
  cbn [no_start]. change ((c :: a) ++ b) with (c :: a ++ b).
  cbn [startswith]. now rewrite Hc, (IH Ha).
Qed.

Lemma startswith_stop t s d b :
  mem d t = false -> startswith t (s ++ d :: b) = true -> startswith t s = true.
Proof.
  revert s. induction t as [| x t IH]; intros s Hd H; [reflexivity |].
  rewrite mem_cons in Hd. apply orb_false_iff in Hd. destruct Hd as [Hx Ht].
  destruct s as [| y s].
  - cbn [app startswith] in H. apply andb_true_iff in H. destruct H as [H _].
    rewrite Ascii.eqb_sym, H in Hx. discriminate Hx.
  - change ((y :: s) ++ d :: b) with (y :: s ++ d :: b) in H.
    cbn [startswith] in *. apply andb_true_iff in H. destruct H as [Hxy H].
    now rewrite Hxy, (IH s Ht H).
Qed.

(** A text without the marker has no start of it either, when what follows
    cannot continue an occurrence. *)
Lemma no_start_stop old a b :
  old <> [] -> contains old a = false -> stops old b = true ->
  no_start old a b = true.
Proof.
  intros Hne Ha Hb. destruct old as [| o t]; [contradiction |].
  induction a as [| c a IH]; [reflexivity |].
  cbn [contains] in Ha. apply orb_false_iff in Ha. destruct Ha as [Hc Ha].
  cbn [no_start]. rewrite (IH Ha), andb_true_r. apply negb_true_iff.
  destruct b as [| d b]; [now rewrite app_nil_r |].
  cbn [stops tl] in Hb. apply negb_true_iff in Hb.
  destruct (startswith (o :: t) ((c :: a) ++ d :: b)) eqn:E; [| reflexivity].
  change ((c :: a) ++ d :: b) with (c :: a ++ d :: b) in E.
  cbn [startswith] in E, Hc. apply andb_true_iff in E. destruct E as [Eo Et].
  now rewrite Eo, (startswith_stop _ _ _ _ Hb Et) in Hc.
Qed.

Lemma contains_app_intro old a b : contains old (a ++ old ++ b) = true.
Proof.
  induction a as [| c a IH].
  - destruct (old ++ b) eqn:E; cbn [app contains]; rewrite <- E;
      now rewrite startswith_app.
  - change ((c :: a) ++ old ++ b) with (c :: a ++ old ++ b).
    cbn [contains]. rewrite IH. apply orb_true_r.
Qed.

Lemma str_of_IPv4Network_no_hash net :
  mem "#" (str_of_IPv4Network net) = false.
Proof.
  unfold str_of_IPv4Network. rewrite !mem_app.
  rewrite !(numeral_mem _ _ (str_of_N_chars _)); reflexivity.
Qed.

Lemma acl_block_no_hash net : mem "#" (Init.acl_block net) = false.
Proof.
  unfold Init.acl_block. rewrite !mem_app, str_of_IPv4Network_no_hash.
  reflexivity.
Qed.

Ltac no_start_tac :=
  rewrite ?no_start_app; repeat (apply andb_true_iff; split);
  first [ reflexivity
        | apply no_start_stop; [discriminate | assumption | reflexivity]
        | apply (no_start_head "#"); apply acl_block_no_hash ].

(** The two replacements on a text with one marker of each kind, the ACL
    marker first. *)
Lemma substitute_acl_zone net zone pre mid post :
  contains Init.acl_prefix pre = false ->
  contains Init.acl_prefix mid = false ->
  contains Init.acl_prefix post = false ->
  contains Init.zone_prefix pre = false ->
  contains Init.zone_prefix mid = false ->
  contains Init.zone_prefix post = false ->
  replace Init.zone_prefix zone
    (replace Init.acl_prefix (Init.acl_block net)
       (pre ++ Init.acl_prefix ++ mid ++ Init.zone_prefix ++ post))
  = pre ++ Init.acl_block net ++ mid ++ zone ++ post.
Proof.
  intros Ha1 Ha2 Ha3 Hz1 Hz2 Hz3.
  rewrite replace_once; [| discriminate | no_start_tac | no_start_tac].
  replace (pre ++ Init.acl_block net ++ mid ++ Init.zone_prefix ++ post)
    with ((pre ++ Init.acl_block net ++ mid) ++ Init.zone_prefix ++ post)
    by now rewrite <- !app_assoc.
  rewrite replace_once; [| discriminate | no_start_tac | no_start_tac].
  now rewrite <- !app_assoc.
Qed.

(** The same with the ZONE marker first. *)
Lemma substitute_zone_acl net zone pre mid post :
  contains Init.acl_prefix pre = false ->
  contains Init.acl_prefix mid = false ->
  contains Init.acl_prefix post = false ->
  contains Init.zone_prefix pre = false ->
  contains Init.zone_prefix mid = false ->
  contains Init.zone_prefix post = false ->
  replace Init.zone_prefix zone
    (replace Init.acl_prefix (Init.acl_block net)
       (pre ++ Init.zone_prefix ++ mid ++ Init.acl_prefix ++ post))
  = pre ++ zone ++ mid ++ Init.acl_block net ++ post.
Proof.
  intros Ha1 Ha2 Ha3 Hz1 Hz2 Hz3.
  replace (pre ++ Init.zone_prefix ++ mid ++ Init.acl_prefix ++ post)
    with ((pre ++ Init.zone_prefix ++ mid) ++ Init.acl_prefix ++ post)
    by now rewrite <- !app_assoc.
  rewrite replace_once; [| discriminate | no_start_tac | no_start_tac].
  rewrite <- !app_assoc.
  rewrite replace_once; [reflexivity | discriminate | no_start_tac |].
  no_start_tac.
Qed.

(** * Initialization: substitution *)

Lemma create_keeps_corefile zone_name w :
  corefile (exec (Init.__create_zone_file__ zone_name) w) = corefile w
  /\ result (Init.__create_zone_file__ zone_name) w = Return tt.
Proof.
  unfold exec, result. destruct (zonefile w) as [z |] eqn:E.
  - now rewrite (create_on_existing _ _ _ E).
  - now rewrite (create_on_absent _ _ E).
Qed.

(** With the marker present, [run] writes the text with every occurrence of
    both markers replaced, and succeeds. *)
Lemma run_substitutes host w net zone_name data :
  eth0_network host = Return net ->
  result (Init.__get_zone_from_hostname__ host) w = Return zone_name ->
  text CORE_FILE w = Some data ->
  contains Init.acl_prefix data = true ->
  result (Init.run host) w = Return tt
  /\ corefile (exec (Init.run host) w)
     = Some (replace Init.zone_prefix (Init.zone_block zone_name)
               (replace Init.acl_prefix (Init.acl_block net) data)).
Proof.
  intros Hnet Hzone Htext Hacl.
  assert (Init.run host w
          = Init.__create_zone_file__ zone_name
              (store CORE_FILE
                 (replace Init.zone_prefix (Init.zone_block zone_name)
                    (replace Init.acl_prefix (Init.acl_block net) data)) w))
    as E.
  { rewrite (run_after_discovery host w net zone_name Hnet Hzone).
    unfold bind, read_text. unfold text, option_map in Htext.
    destruct (content CORE_FILE w) as [raw |]; [| discriminate].
    injection Htext as Hd. rewrite Hd, Hacl. reflexivity. }
  unfold result, exec. rewrite E.
  match goal with
  | |- context [Init.__create_zone_file__ zone_name ?w1] =>
      destruct (create_keeps_corefile zone_name w1) as [Hc Hr]
  end.
  unfold exec, result in Hc, Hr. rewrite Hc, Hr. split; reflexivity.
Qed.

(** C7, as amended: when the text of the Corefile holds one ACL marker and
    one ZONE marker, in either order, between parts that hold neither
    marker, [init] (the subnet and the zone name having been discovered)
    succeeds and writes the same text with the ACL marker replaced by the
    ACL block and the ZONE marker by the zone block, the parts unchanged. *)
Theorem init_substitutes_single_markers
    (host : Host) (w : World) (net : IPv4Network) (zone_name : str)
    (pre mid post : str) :
  eth0_network host = Return net ->
  result (Init.__get_zone_from_hostname__ host) w = Return zone_name ->
  contains Init.acl_prefix pre = false ->
  contains Init.acl_prefix mid = false ->
  contains Init.acl_prefix post = false ->
  contains Init.zone_prefix pre = false ->
  contains Init.zone_prefix mid = false ->
  contains Init.zone_prefix post = false ->
  (text CORE_FILE w
   = Some (pre ++ Init.acl_prefix ++ mid ++ Init.zone_prefix ++ post) ->
   result (Init.run host) w = Return tt
   /\ corefile (exec (Init.run host) w)
      = Some (pre ++ Init.acl_block net ++ mid ++ Init.zone_block zone_name
                ++ post))
  /\ (text CORE_FILE w
      = Some (pre ++ Init.zone_prefix ++ mid ++ Init.acl_prefix ++ post) ->
      result (Init.run host) w = Return tt
      /\ corefile (exec (Init.run host) w)
         = Some (pre ++ Init.zone_block zone_name ++ mid ++ Init.acl_block net
                   ++ post)).
Proof.
  intros Hnet Hzone Ha1 Ha2 Ha3 Hz1 Hz2 Hz3. split; intros Htext.
  - destruct (run_substitutes host w net zone_name _ Hnet Hzone Htext)
      as [Hr Hc]; [apply contains_app_intro |].
    split; [exact Hr |]. rewrite Hc. f_equal.
    now apply substitute_acl_zone.
  - destruct (run_substitutes host w net zone_name _ Hnet Hzone Htext)
      as [Hr Hc].
    { replace (pre ++ Init.zone_prefix ++ mid ++ Init.acl_prefix ++ post)
        with ((pre ++ Init.zone_prefix ++ mid) ++ Init.acl_prefix ++ post)
        by now rewrite <- !app_assoc.
      apply contains_app_intro. }
    split; [exact Hr |]. rewrite Hc. f_equal.
    now apply substitute_zone_acl.
Qed.

Lemma init_substitutes_single_markers_witness :
  result (Init.run sector1_host) template_world = Return tt
  /\ corefile (exec (Init.run sector1_host) template_world)
     = Some ((L ". {" ++ [LF] ++ L "    ")
             ++ Init.acl_block (mkNet 167772160 24)
             ++ ([LF] ++ L "    ")
             ++ Init.zone_block (L "sector1.orbitlab.internal")
             ++ ([LF] ++ L "    forward . 1.1.1.1" ++ [LF] ++ L "}" ++ [LF])).
Proof.
  apply (proj1 (init_substitutes_single_markers sector1_host template_world
                  (mkNet 167772160 24) (L "sector1.orbitlab.internal")
                  (L ". {" ++ [LF] ++ L "    ") ([LF] ++ L "    ")
                  ([LF] ++ L "    forward . 1.1.1.1" ++ [LF] ++ L "}" ++ [LF])
                  eq_refl eq_refl eq_refl eq_refl eq_refl eq_refl eq_refl
                  eq_refl));
    reflexivity.
Defined.

Example two_acl_markers_both_replaced :
  corefile (exec (Init.run sector1_host) two_acl_world)
  = Some (L ". {" ++ [LF] ++ L "    "
          ++ Init.acl_block (mkNet 167772160 24) ++ [LF] ++ L "    "
          ++ Init.zone_block (L "sector1.orbitlab.internal") ++ [LF] ++ L "}"
          ++ [LF] ++ L "lab. {" ++ [LF] ++ L "    "
          ++ Init.acl_block (mkNet 167772160 24) ++ [LF] ++ L "}" ++ [LF]).
Proof. reflexivity. Qed.

(** Replacing one occurrence of each marker changes the length by that of
    the two blocks minus that of the two markers. *)
Lemma substituted_once_length data acl zone out :
  substituted_once data acl zone (Some out) ->
  length out + 11 = length data + length acl + length zone.
Proof.
  intros [a [b [c [[-> Ha] | [-> Ha]]]]]; injection Ha as ->;
    rewrite !length_app;
    change (length Init.acl_prefix) with 5;
    change (length Init.zone_prefix) with 6; lia.
Qed.

(** C7, as stated, fails: a text with the ACL marker in two places has
    both occurrences replaced, so the text written is not the text read
    with one ACL marker and one ZONE marker replaced. *)
Lemma init_substitutes_counterexample :
  ~ (forall (host : Host) (w : World) (net : IPv4Network)
            (zone_name data : str),
       eth0_network host = Return net ->
       result (Init.__get_zone_from_hostname__ host) w = Return zone_name ->
       text CORE_FILE w = Some data ->
       contains Init.acl_prefix data = true ->
       contains Init.zone_prefix data = true ->
       substituted_once data (Init.acl_block net) (Init.zone_block zone_name)
         (corefile (exec (Init.run host) w))).
Proof.
  intros H.
  specialize (H sector1_host two_acl_world (mkNet 167772160 24)
                (L "sector1.orbitlab.internal") two_acl_markers
                eq_refl eq_refl eq_refl eq_refl eq_refl).
  rewrite two_acl_markers_both_replaced in H.
  apply substituted_once_length in H. vm_compute in H. discriminate H.
Qed.

(** * Prefix safety on a file without final newline *)

Example unterminated_scenario :
  host1_host10_scenario 300 (L "10.0.0.1") 300 (L "10.0.0.2") unterminated_world
  = (Return tt,
     mkWorld None
       (Some (L "host9 300 IN A 10.0.0.9host1 300 IN A 10.0.0.1" ++ [LF]
              ++ L "host10 300 IN A 10.0.0.2" ++ [LF]))
       [L "Added A Record: host1 -> 10.0.0.1";
        L "Added A Record: host10 -> 10.0.0.2";
        L "Record not found: host1"]
       2).
Proof. reflexivity. Qed.

(** C3, as stated, fails: on a zone file whose last line lacks its newline
    the record of host1 is appended to that line, the delete finds no line
    starting with "host1 " and removes nothing. *)
Lemma prefix_safety_counterexample :
  ~ (forall (w : World) (z : str) (ttl1 : Z) (ip1 : str) (ttl10 : Z) (ip10 : str),
       zonefile w = Some z ->
       lines_of (L "host1") (readlines z) = [] ->
       zonefile (exec (host1_host10_scenario ttl1 ip1 ttl10 ip10) w)
       = Some (z ++ RecordManagement.record_line (host10 ttl10 ip10))).
Proof.
  intros H.
  specialize (H unterminated_world (L "host9 300 IN A 10.0.0.9")
                300%Z (L "10.0.0.1") 300%Z (L "10.0.0.2") eq_refl eq_refl).
  vm_compute in H. discriminate H.
Qed.

(** * Trimming *)

Lemma lstrip_hd_ok s : hd_ok (lstrip s) = true.
Proof.
  induction s as [| c s IH]; [reflexivity |]. cbn [lstrip].
  destruct (isspace c) eqn:E; [exact IH |]. cbn [hd_ok]. now rewrite E.
Qed.

Lemma lstrip_id s : hd_ok s = true -> lstrip s = s.
Proof.
  destruct s as [| c s]; [reflexivity |]. cbn [hd_ok lstrip].
  intros H. apply negb_true_iff in H. now rewrite H.
Qed.

(** [lstrip] drops a prefix. *)
Lemma lstrip_suffix s : exists sp, s = sp ++ lstrip s.
Proof.
  induction s as [| c s [sp IH]]; [now exists [] |]. cbn [lstrip].
  destruct (isspace c).
  - exists (c :: sp). cbn [app]. now rewrite <- IH.
  - now exists [].
Qed.

Lemma strip_no_outer_space s : no_outer_space (strip s) = true.
Proof.
  unfold no_outer_space, strip, rstrip. rewrite rev_involutive.
  rewrite (lstrip_hd_ok (rev (lstrip s))), andb_true_r.
  destruct (lstrip_suffix (rev (lstrip s))) as [sp Hsp].
  pose proof (lstrip_hd_ok s) as Hu.
  rewrite <- (rev_involutive (lstrip s)), Hsp, rev_app_distr in Hu.
  destruct (rev (lstrip (rev (lstrip s)))) as [| c t]; [reflexivity |].
  exact Hu.
Qed.

Lemma strip_id s : no_outer_space s = true -> strip s = s.
Proof.
  unfold no_outer_space, strip, rstrip. intros H.
  apply andb_true_iff in H. destruct H as [H1 H2].
  now rewrite (lstrip_id _ H1), (lstrip_id _ H2), rev_involutive.
Qed.

Lemma strip_strip s : strip (strip s) = strip s.
Proof. apply strip_id, strip_no_outer_space. Qed.

Lemma delete_record_ignores_outer_whitespace_aux args w :
  RecordManagement.delete_record args w
  = RecordManagement.delete_record (mkDelete (strip (delete_hostname args))) w.
Proof.
  rewrite !delete_record_run. cbv zeta.
  change (delete_hostname (mkDelete (strip (delete_hostname args))))
    with (strip (delete_hostname args)).
  now rewrite strip_strip.
Qed.

(** X4: [delete_record] sees the hostname only through [strip]: whitespace
    around the argument changes nothing, in any state. *)
Theorem delete_record_ignores_outer_whitespace
    (args : DeleteRecordArgs) (w : World) :
  RecordManagement.delete_record args w
  = RecordManagement.delete_record (mkDelete (strip (delete_hostname args))) w.
Proof.
  rewrite !delete_record_run. cbv zeta.
  change (delete_hostname (mkDelete (strip (delete_hostname args))))
    with (strip (delete_hostname args)).
  now rewrite strip_strip.
Qed.

(** X5: a trimmed hostname is never the single space, so the fourth
    reserved entry never matches: the hostnames that [delete_record]
    refuses as forbidden are exactly $ORIGIN, @ and ns1. *)
Theorem forbidden_after_strip (s : str) :
  strip s <> L " "
  /\ (existsb (str_eqb (strip s)) RecordManagement.forbidden = true
      <-> In (strip s) [L "$ORIGIN"; L "@"; L "ns1"]).
Proof.
  assert (strip s <> L " ") as Hsp.
  { intros E. pose proof (strip_no_outer_space s) as H.
    rewrite E in H. discriminate H. }
  split; [exact Hsp |]. rewrite existsb_exists. split.
  - intros [f [Hf Heq]]. apply str_eqb_eq in Heq. subst f.
    cbn [RecordManagement.forbidden In] in Hf. cbn [In].
    destruct Hf as [H | [H | [H | [H | []]]]]; auto.
  - intros H. exists (strip s). split; [| now apply str_eqb_eq].
    cbn [RecordManagement.forbidden In] in *. tauto.
Qed.

(** * Deletion: absent file, repetition *)

(** X3: without a zone file, a hostname that passes the checks makes
    [delete_record] raise [FileNotFoundError] with nothing printed or
    changed; an empty or reserved hostname is refused before the file is
    opened, so that call still returns normally. *)
Theorem delete_record_absent_file (args : DeleteRecordArgs) (w : World) :
  zonefile w = None ->
  let hostname := strip (delete_hostname args) in
  (hostname <> [] -> ~ In hostname RecordManagement.forbidden ->
   RecordManagement.delete_record args w = (Raise FileNotFoundError, w))
  /\ (hostname = [] \/ In hostname RecordManagement.forbidden ->
      result (RecordManagement.delete_record args) w = Return tt
      /\ zonefile (exec (RecordManagement.delete_record args) w) = None).
Proof.
  intros Habs hostname. unfold result, exec.
  rewrite delete_record_run. fold hostname.
  assert (text ZONE_FILE w = None) as Htext.
  { unfold text. cbn [content]. now rewrite Habs. }
  split.
  - intros Hne Hres. apply str_eqb_neq in Hne. rewrite Hne.
    destruct (existsb (str_eqb hostname) RecordManagement.forbidden) eqn:E.
    + apply existsb_exists in E. destruct E as [f [Hf Heq]].
      apply str_eqb_eq in Heq. subst f. contradiction.
    + now rewrite Htext.
  - intros H. destruct (str_eqb hostname []) eqn:E1; [now split |].
    destruct (existsb (str_eqb hostname) RecordManagement.forbidden) eqn:E2;
      [now split |].
    destruct H as [H | H].
    + apply str_eqb_eq in H. congruence.
    + assert (existsb (str_eqb hostname) RecordManagement.forbidden = true)
        as E; [| congruence].
      apply existsb_exists. exists hostname. split; [exact H |].
      now apply str_eqb_eq.
Qed.

Lemma delete_record_absent_file_witness :
  RecordManagement.delete_record (mkDelete (L "web1")) empty_world
  = (Raise FileNotFoundError, empty_world).
Proof.
  apply (proj1 (delete_record_absent_file (mkDelete (L "web1")) empty_world
                  eq_refl)).
  - discriminate.
  - vm_compute. intuition discriminate.
Defined.

Lemma text_deleted hostname data w :
  mem CR data = false ->
  text ZONE_FILE (deleted hostname data w)
  = Some (writelines (lines_without hostname (readlines data))).
Proof.
  intros H. unfold text, deleted. cbn [content zonefile option_map]. f_equal.
  apply universal_newlines_id. unfold writelines, lines_without.
  apply mem_concat_filter. now rewrite concat_readlines.
Qed.

(** X2: whatever [delete_record] did for a hostname that passes the checks
    on an existing zone file, no line of the file starts with that hostname
    afterwards, and the same call again only prints "Record not found". *)
Theorem delete_record_twice (args : DeleteRecordArgs) (w : World) (data : str) :
  text ZONE_FILE w = Some data ->
  let hostname := strip (delete_hostname args) in
  hostname <> [] ->
  ~ In hostname RecordManagement.forbidden ->
  let w1 := exec (RecordManagement.delete_record args) w in
  lines_of hostname (zone_lines w1) = []
  /\ RecordManagement.delete_record args w1
     = (Return tt, printed (L "Record not found: " ++ hostname) w1).
Proof.
  intros Hdata hostname Hne Hres w1.
  assert (existsb (str_eqb hostname) RecordManagement.forbidden = false) as E.
  { destruct (existsb _ RecordManagement.forbidden) eqn:E; [| reflexivity].
    apply existsb_exists in E. destruct E as [f [Hf Heq]].
    apply str_eqb_eq in Heq. subst f. contradiction. }
  assert (exists data1, text ZONE_FILE w1 = Some data1
                        /\ lines_of hostname (readlines data1) = [])
    as [data1 [Ht1 Hnone]].
  { unfold w1, exec. rewrite delete_record_run. fold hostname.
    apply str_eqb_neq in Hne. rewrite Hne, E, Hdata.
    destruct (lines_of hostname (readlines data)) eqn:El; cbn [snd].
    - exists data. split; [exact Hdata | exact El].
    - eexists. split; [apply text_deleted; exact (text_no_CR _ _ _ Hdata) |].
      unfold writelines, lines_without. rewrite readlines_filter.
      apply lines_of_lines_without. }
  split.
  - unfold zone_lines. now rewrite Ht1.
  - rewrite delete_record_ignores_outer_whitespace_aux.
    apply (delete_record_not_found _ _ data1); try assumption.
    apply strip_strip.
Qed.

Lemma delete_record_twice_witness :
  let w1 := exec (RecordManagement.delete_record (mkDelete (L " web1 ")))
              crowded_world in
  lines_of (L "web1") (zone_lines w1) = []
  /\ RecordManagement.delete_record (mkDelete (L " web1 ")) w1
     = (Return tt, printed (L "Record not found: " ++ L "web1") w1).
Proof.
  apply (delete_record_twice (mkDelete (L " web1 ")) crowded_world
           (L "web1 300 IN A 10.0.0.5" ++ [LF] ++ L "web10 300 IN A 10.0.0.7"
            ++ [LF] ++ L "web1 60 IN A 10.0.0.6" ++ [LF]) eq_refl).
  - discriminate.
  - vm_compute. intuition discriminate.
Defined.

(** * Adding and deleting in general *)

(** X1: on a zone file whose text ends with a newline (or is empty), a
    record with a trimmed, non-empty, non-reserved, one-line hostname and a
    one-line address is always found by the delete that follows its add:
    both calls succeed, and what is left are the earlier lines that do not
    start with the hostname, so older records of that hostname go too. *)
Theorem add_then_delete_removes_all
    (args : AddRecordArgs) (w : World) (data : str) :
  text ZONE_FILE w = Some data ->
  terminated data = true ->
  strip (add_hostname args) = add_hostname args ->
  add_hostname args <> [] ->
  existsb (str_eqb (add_hostname args)) RecordManagement.forbidden = false ->
  single_line (add_hostname args) = true ->
  single_line (add_ip args) = true ->
  result (add_then_delete args) w = Return tt
  /\ zonefile (exec (add_then_delete args) w)
     = Some (writelines (lines_without (add_hostname args) (readlines data)))
  /\ zone_lines (exec (add_then_delete args) w)
     = lines_without (add_hostname args) (readlines data)
  /\ restarts (exec (add_then_delete args) w) = S (S (restarts w)).
Proof.
  intros Hdata Hterm Hstrip Hne Hres Hh Hip.
  assert (exists raw, zonefile w = Some raw /\ universal_newlines raw = data)
    as [raw [Hraw Hun]].
  { unfold text, option_map in Hdata. cbn [content] in Hdata.
    destruct (zonefile w) as [raw |]; [| discriminate].
    injection Hdata as <-. now exists raw. }
  set (record := RecordManagement.record_line args).
  assert (text ZONE_FILE (added args raw w) = Some (data ++ record)) as Ht.
  { rewrite (text_added args raw w Hh Hip). now rewrite Hun. }
  assert (readlines (data ++ record) = readlines data ++ [record]) as Hlines
    by now apply readlines_added.
  assert (add_then_delete args w
          = (Return tt, deleted (add_hostname args) (data ++ record)
                          (added args raw w))) as Hrun.
  { unfold add_then_delete, bind. rewrite add_record_run, Hraw.
    apply delete_record_deleted; try assumption.
    rewrite Hlines, lines_of_app. unfold record. rewrite lines_of_record.
    destruct (lines_of (add_hostname args) (readlines data)); discriminate. }
  assert (lines_without (add_hostname args) (readlines (data ++ record))
          = lines_without (add_hostname args) (readlines data)) as Hkept.
  { rewrite Hlines, lines_without_app. unfold record.
    now rewrite lines_without_record, app_nil_r. }
  unfold result, exec. rewrite Hrun. cbn [fst snd]. repeat split.
  - unfold deleted. cbn [zonefile]. now rewrite Hkept.
  - rewrite zone_lines_deleted; [exact Hkept |]. exact (text_no_CR _ _ _ Ht).
Qed.

Lemma add_then_delete_removes_all_witness :
  result (add_then_delete (mkAdd (L "web1") 300 (L "10.0.0.8"))) crowded_world
  = Return tt
  /\ zonefile
       (exec (add_then_delete (mkAdd (L "web1") 300 (L "10.0.0.8")))
          crowded_world)
     = Some (writelines
               (lines_without (L "web1")
                  (readlines
                     (L "web1 300 IN A 10.0.0.5" ++ [LF]
                      ++ L "web10 300 IN A 10.0.0.7" ++ [LF]
                      ++ L "web1 60 IN A 10.0.0.6" ++ [LF]))))
  /\ zone_lines
       (exec (add_then_delete (mkAdd (L "web1") 300 (L "10.0.0.8")))
          crowded_world)
     = lines_without (L "web1")
         (readlines
            (L "web1 300 IN A 10.0.0.5" ++ [LF]
             ++ L "web10 300 IN A 10.0.0.7" ++ [LF]
             ++ L "web1 60 IN A 10.0.0.6" ++ [LF]))
  /\ restarts
       (exec (add_then_delete (mkAdd (L "web1") 300 (L "10.0.0.8")))
          crowded_world)
     = 2.
Proof.
  apply (add_then_delete_removes_all (mkAdd (L "web1") 300 (L "10.0.0.8"))
           crowded_world
           (L "web1 300 IN A 10.0.0.5" ++ [LF] ++ L "web10 300 IN A 10.0.0.7"
            ++ [LF] ++ L "web1 60 IN A 10.0.0.6" ++ [LF]));
    try reflexivity.
  discriminate.
Defined.

(** * What record management leaves alone *)

(** X11: neither [add_record] nor [delete_record] ever writes the
    Corefile, and [delete_record] restarts CoreDNS exactly when it rewrote
    the zone file: otherwise the zone file and the restart count are as
    before. *)
Theorem record_management_frame (w : World) :
  (forall args,
      corefile (exec (RecordManagement.add_record args) w) = corefile w)
  /\ (forall args,
         let w' := exec (RecordManagement.delete_record args) w in
         corefile w' = corefile w
         /\ ((zonefile w' = zonefile w /\ restarts w' = restarts w)
             \/ (restarts w' = S (restarts w)
                 /\ exists data,
                      text ZONE_FILE w = Some data
                      /\ lines_of (strip (delete_hostname args))
                           (readlines data) <> []
                      /\ zonefile w'
                         = Some (writelines
                                   (lines_without
                                      (strip (delete_hostname args))
                                      (readlines data)))))).
Proof.
  split.
  - intros args. unfold exec. now rewrite add_record_run.
  - intros args w'. unfold w', exec. rewrite delete_record_run. cbv zeta.
    destruct (str_eqb (strip (delete_hostname args)) []);
      [split; [reflexivity | left; now split] |].
    destruct (existsb _ RecordManagement.forbidden);
      [split; [reflexivity | left; now split] |].
    destruct (text ZONE_FILE w) as [data |] eqn:Ht;
      [| split; [reflexivity | left; now split]].
    destruct (lines_of (strip (delete_hostname args)) (readlines data)) eqn:El;
      [split; [reflexivity | left; now split] |].
    split; [reflexivity |]. right. split; [reflexivity |].
    exists data. rewrite El. repeat split. discriminate.
Qed.

(** * Other hostnames *)

Lemma startswith_two_tokens h k l :
  mem SP h = false -> mem SP k = false ->
  startswith (h ++ L " ") l = true -> startswith (k ++ L " ") l = true ->
  h = k.
Proof.
  intros Hh Hk H1 H2. apply startswith_prefix in H2. destruct H2 as [t ->].
  rewrite <- app_assoc in H1. now apply (token_unique h k t).
Qed.

Lemma lines_of_other hostname k ls :
  mem SP hostname = false -> mem SP k = false -> k <> hostname ->
  lines_of k (lines_without hostname ls) = lines_of k ls.
Proof.
  intros Hh Hk Hne. unfold lines_of, lines_without.
  induction ls as [| l ls IH]; [reflexivity |]. cbn [filter].
  destruct (startswith (hostname ++ L " ") l) eqn:E1; cbn [negb filter].
  - rewrite IH. destruct (startswith (k ++ L " ") l) eqn:E2; [| reflexivity].
    destruct Hne. symmetry. now apply (startswith_two_tokens hostname k l).
  - now rewrite IH.
Qed.

(** X14: deleting a hostname never removes or alters a line of another
    hostname, in any state: for hostnames without space inside, the lines
    of every other hostname are the same before and after. *)
Theorem delete_record_keeps_other_hostnames
    (args : DeleteRecordArgs) (w : World) (k : str) :
  mem SP (strip (delete_hostname args)) = false ->
  mem SP k = false ->
  k <> strip (delete_hostname args) ->
  lines_of k (zone_lines (exec (RecordManagement.delete_record args) w))
  = lines_of k (zone_lines w).
Proof.
  intros Hh Hk Hne. unfold exec. rewrite delete_record_run. cbv zeta.
  destruct (str_eqb (strip (delete_hostname args)) []); [reflexivity |].
  destruct (existsb _ RecordManagement.forbidden); [reflexivity |].
  destruct (text ZONE_FILE w) as [data |] eqn:Ht; [| reflexivity].
  destruct (lines_of (strip (delete_hostname args)) (readlines data));
    [reflexivity |].
  cbn [snd]. rewrite (zone_lines_deleted _ _ _ (text_no_CR _ _ _ Ht)).
  unfold zone_lines at 1. rewrite Ht. now apply lines_of_other.
Qed.

Lemma delete_record_keeps_other_hostnames_witness :
  lines_of (L "web10")
    (zone_lines
       (exec (RecordManagement.delete_record (mkDelete (L "web1")))
          crowded_world))
  = lines_of (L "web10") (zone_lines crowded_world).
Proof.
  apply (delete_record_keeps_other_hostnames (mkDelete (L "web1"))
           crowded_world (L "web10")); try reflexivity.
  discriminate.
Defined.

(** * Initialization as a whole *)

Lemma create_zone_file_run zone_name w :
  Init.__create_zone_file__ zone_name w
  = (Return tt,
     mkWorld (corefile w)
       (Some (match zonefile w with
              | Some z => z
              | None => zone_text zone_name
              end))
       (stdout w) (restarts w)).
Proof.
  destruct (zonefile w) as [z |] eqn:E.
  - rewrite (create_on_existing zone_name w z E). destruct w as [c z' o r].
    cbn [zonefile] in E. now rewrite E.
  - now rewrite (create_on_absent zone_name w E).
Qed.

(** What [run] does with the text of the Corefile once both discoveries
    succeeded. *)
Lemma run_on_text host w net zone_name data :
  eth0_network host = Return net ->
  result (Init.__get_zone_from_hostname__ host) w = Return zone_name ->
  text CORE_FILE w = Some data ->
  Init.run host w
  = if contains Init.acl_prefix data
    then (Return tt,
          after_init
            (replace Init.zone_prefix (Init.zone_block zone_name)
               (replace Init.acl_prefix (Init.acl_block net) data))
            zone_name w)
    else (Return tt, printed (L "Already initialized.") w).
Proof.
  intros Hnet Hzone Htext.
  rewrite (run_after_discovery host w net zone_name Hnet Hzone).
  unfold bind at 1. unfold read_text. unfold text, option_map in Htext.
  destruct (content CORE_FILE w) as [raw |]; [| discriminate].
  injection Htext as Hd. rewrite Hd.
  destruct (contains Init.acl_prefix data); cbn [negb]; [| reflexivity].
  unfold bind, write_text. now rewrite create_zone_file_run.
Qed.

(** The three ways [run] can end. *)
Lemma run_outcomes host w :
  (exists e, Init.run host w = (Raise e, w))
  \/ Init.run host w = (Return tt, printed (L "Already initialized.") w)
  \/ (exists new zone_name,
        Init.run host w = (Return tt, after_init new zone_name w)).
Proof.
  destruct (eth0_network host) as [net | e] eqn:Hnet.
  2:{ left. exists e. unfold Init.run, Init.__get_cidr_from_interface__.
      unfold bind at 1. unfold external at 1. now rewrite Hnet. }
  destruct (result (Init.__get_zone_from_hostname__ host) w)
    as [zone_name | e] eqn:Hzone.
  2:{ left. exists e. unfold Init.run, Init.__get_cidr_from_interface__.
      unfold bind at 1. unfold external at 1. rewrite Hnet.
      unfold bind at 1. now rewrite get_zone_from_hostname_pair, Hzone. }
  destruct (text CORE_FILE w) as [data |] eqn:Htext.
  - rewrite (run_on_text host w net zone_name data Hnet Hzone Htext).
    destruct (contains Init.acl_prefix data); [| now right; left].
    right. right. now eexists _, _.
  - left. exists FileNotFoundError.
    rewrite (run_after_discovery host w net zone_name Hnet Hzone).
    unfold bind, read_text. unfold text, option_map in Htext.
    now destruct (content CORE_FILE w).
Qed.

(** X6: [init] never restarts CoreDNS, never changes a zone file that
    exists, prints nothing but possibly "Already initialized.", and when it
    raises it has changed nothing at all; this for every host and state. *)
Theorem init_frame (host : Host) (w : World) :
  let w' := exec (Init.run host) w in
  restarts w' = restarts w
  /\ (forall z, zonefile w = Some z -> zonefile w' = Some z)
  /\ (stdout w' = stdout w \/ stdout w' = stdout w ++ [L "Already initialized."])
  /\ (forall e, result (Init.run host) w = Raise e -> w' = w).
Proof.
  intros w'. unfold w', exec, result.
  destruct (run_outcomes host w) as [[e E] | [E | [new [zn E]]]]; rewrite E;
    cbn [fst snd].
  - repeat split; auto.
  - repeat split; auto. intros e H. discriminate H.
  - repeat split; auto.
    + intros z Hz. unfold after_init. cbn [zonefile]. now rewrite Hz.
    + intros e H. discriminate H.
Qed.

Lemma init_frame_witness :
  zonefile (exec (Init.run sector1_host)
              (mkWorld (Some template) (Some (L "kept")) [] 0))
  = Some (L "kept").
Proof.
  apply (proj1 (proj2 (init_frame sector1_host
                         (mkWorld (Some template) (Some (L "kept")) [] 0)))).
  reflexivity.
Defined.

(** X7: [init] fails fast and in order: a failure of the subnet discovery
    is raised whatever the hostname is; else a failure of the hostname
    command, or a hostname output without exactly one hyphen
    ([ValueError]), is raised whatever the Corefile is; else a missing
    Corefile raises [FileNotFoundError].  Each time the world is
    untouched. *)
Theorem init_fails_fast (host : Host) (w : World) :
  (forall e, eth0_network host = Raise e -> Init.run host w = (Raise e, w))
  /\ (forall net e,
         eth0_network host = Return net -> hostname_stdout host = Raise e ->
         Init.run host w = (Raise e, w))
  /\ (forall net out,
         eth0_network host = Return net -> hostname_stdout host = Return out ->
         hyphens out <> 1 ->
         Init.run host w = (Raise ValueError, w))
  /\ (forall net zone_name,
         eth0_network host = Return net ->
         result (Init.__get_zone_from_hostname__ host) w = Return zone_name ->
         corefile w = None ->
         Init.run host w = (Raise FileNotFoundError, w)).
Proof.
  assert (forall net e,
             eth0_network host = Return net ->
             result (Init.__get_zone_from_hostname__ host) w = Raise e ->
             Init.run host w = (Raise e, w)) as Hzone.
  { intros net e Hnet Hz. unfold Init.run, Init.__get_cidr_from_interface__.
    unfold bind at 1. unfold external at 1. rewrite Hnet.
    unfold bind at 1. now rewrite get_zone_from_hostname_pair, Hz. }
  repeat split.
  - intros e Hnet. unfold Init.run, Init.__get_cidr_from_interface__.
    unfold bind at 1. unfold external at 1. now rewrite Hnet.
  - intros net e Hnet Hout. apply (Hzone net e Hnet).
    unfold result, Init.__get_zone_from_hostname__, bind, external.
    now rewrite Hout.
  - intros net out Hnet Hout Hn. apply (Hzone net ValueError Hnet).
    unfold result, Init.__get_zone_from_hostname__, bind, external.
    rewrite Hout. pose proof (split_length out) as Hlen.
    destruct (split "-" out) as [| x [| y [| z l]]]; cbn [length] in Hlen;
      try reflexivity.
    exfalso. apply Hn. now injection Hlen.
  - intros net zone_name Hnet Hz Hcore.
    rewrite (run_after_discovery host w net zone_name Hnet Hz).
    unfold bind, read_text. cbn [content]. now rewrite Hcore.
Qed.

Lemma init_fails_fast_witness :
  Init.run localhost_host template_world = (Raise ValueError, template_world).
Proof.
  apply (proj1 (proj2 (proj2 (init_fails_fast localhost_host template_world)))
           (mkNet 167772160 24) (L "localhost" ++ [LF]));
    try reflexivity.
  vm_compute. discriminate.
Defined.

(** * Markers that are absent *)

Lemma no_start_nil_contains old s :
  old <> [] -> no_start old s [] = negb (contains old s).
Proof.
  intros Hne. induction s as [| c s IH].
  - destruct old; [contradiction | reflexivity].
  - cbn [no_start contains]. now rewrite app_nil_r, IH, negb_orb.
Qed.

Lemma replace_absent old new s :
  old <> [] -> contains old s = false -> replace old new s = s.
Proof.
  intros Hne H. assert (no_start old s [] = true) as Hs.
  { rewrite (no_start_nil_contains _ _ Hne), H. reflexivity. }
  unfold replace. destruct old as [| o t]; [contradiction |].
  rewrite <- (app_nil_r s) at 1.
  rewrite (replace_from_no_start _ _ _ _ Hs). now rewrite app_nil_r.
Qed.

Lemma contains_without_head o t s :
  mem o s = false -> contains (o :: t) s = false.
Proof.
  intros H. apply negb_true_iff.
  rewrite <- (no_start_nil_contains (o :: t) s); [| discriminate].
  now apply no_start_head.
Qed.

Lemma zone_block_without c zone_name :
  mem c zone_name = false ->
  mem c (Init.zone_block []) = false ->
  mem c (Init.zone_block zone_name) = false.
Proof.
  unfold Init.zone_block. rewrite !mem_app. intros Hz H.
  do 6 (apply orb_false_iff in H; destruct H as [? H]).
  rewrite Hz.
  repeat match goal with E : mem c _ = false |- _ => rewrite E; clear E end.
  reflexivity.
Qed.

Lemma acl_block_no_CR net : mem CR (Init.acl_block net) = false.
Proof.
  unfold Init.acl_block, str_of_IPv4Network. rewrite !mem_app.
  rewrite !(numeral_mem _ _ (str_of_N_chars _)); reflexivity.
Qed.

(** X12: whatever the network, the rendered ACL block holds neither
    marker, so the replacement of the ZONE marker that follows never
    rewrites text inside an ACL block. *)
Theorem acl_block_holds_no_marker (net : IPv4Network) :
  contains Init.acl_prefix (Init.acl_block net) = false
  /\ contains Init.zone_prefix (Init.acl_block net) = false.
Proof.
  split; apply (contains_without_head "#"); apply acl_block_no_hash.
Qed.

Ltac split_ands :=
  match goal with
  | |- _ /\ _ => split; split_ands
  | _ => idtac
  end.

Ltac same_hyp :=
  match goal with
  | H : ?P |- ?P => exact H
  end.

Ltac no_start_piece :=
  match goal with
  | |- no_start _ (Init.acl_block _) _ = true =>
      apply (no_start_head "#"); apply acl_block_no_hash
  | |- no_start _ (Init.zone_block _) _ = true =>
      apply (no_start_head "#"); apply zone_block_without;
      [same_hyp | reflexivity]
  | |- no_start _ _ _ = true =>
      apply no_start_stop; [discriminate | same_hyp | reflexivity]
  end.

Ltac no_start_blocks :=
  rewrite ?no_start_app; rewrite ?andb_true_iff; split_ands; no_start_piece.

(** X10: a Corefile text with one ACL marker and no ZONE marker is
    accepted without complaint: the ACL block replaces the marker, no zone
    stanza is written anywhere, and the zone file is created all the
    same. *)
Theorem init_without_zone_marker
    (host : Host) (w : World) (net : IPv4Network) (zone_name : str)
    (pre post : str) :
  eth0_network host = Return net ->
  result (Init.__get_zone_from_hostname__ host) w = Return zone_name ->
  text CORE_FILE w = Some (pre ++ Init.acl_prefix ++ post) ->
  contains Init.acl_prefix pre = false ->
  contains Init.acl_prefix post = false ->
  contains Init.zone_prefix pre = false ->
  contains Init.zone_prefix post = false ->
  Init.run host w
  = (Return tt, after_init (pre ++ Init.acl_block net ++ post) zone_name w).
Proof.
  intros Hnet Hzone Htext Ha1 Ha2 Hz1 Hz2.
  rewrite (run_on_text host w net zone_name _ Hnet Hzone Htext).
  rewrite contains_app_intro.
  rewrite replace_once; [| discriminate | no_start_blocks | no_start_blocks].
  rewrite replace_absent; [reflexivity | discriminate |].
  apply negb_true_iff.
  rewrite <- no_start_nil_contains; [| discriminate]. no_start_blocks.
Qed.

Lemma init_without_zone_marker_witness :
  Init.run sector1_host acl_only_world
  = (Return tt,
     after_init
       ((L ". {" ++ [LF] ++ L "    ") ++ Init.acl_block (mkNet 167772160 24)
        ++ ([LF] ++ L "    forward . 1.1.1.1" ++ [LF] ++ L "}" ++ [LF]))
       (L "sector1.orbitlab.internal") acl_only_world).
Proof.
  apply (init_without_zone_marker sector1_host acl_only_world
           (mkNet 167772160 24) (L "sector1.orbitlab.internal")
           (L ". {" ++ [LF] ++ L "    ")
           ([LF] ++ L "    forward . 1.1.1.1" ++ [LF] ++ L "}" ++ [LF]));
    reflexivity.
Defined.

(** * Running init twice *)

Lemma zone_of_one_hyphen host a b w :
  hostname_stdout host = Return (a ++ "-"%char :: b) ->
  mem "-" a = false -> mem "-" b = false ->
  result (Init.__get_zone_from_hostname__ host) w
  = Return (a ++ L ".orbitlab.internal").
Proof.
  intros Hout Ha Hb.
  unfold result, Init.__get_zone_from_hostname__, bind, external.
  rewrite Hout, (split_at_first _ _ _ Ha), (split_without_sep _ _ Hb).
  reflexivity.
Qed.

(** X8: on a Corefile text with one ACL marker followed by one ZONE marker
    (the parts around them holding neither), for a hostname ["<a>-<b>"]
    whose [a] has no '#' and no carriage return, [init] writes the text
    with both blocks in place and makes sure the zone file exists; a second
    [init] then only prints "Already initialized." *)
Theorem init_twice
    (host : Host) (w : World) (net : IPv4Network) (a b pre mid post : str) :
  eth0_network host = Return net ->
  hostname_stdout host = Return (a ++ "-"%char :: b) ->
  mem "-" a = false -> mem "-" b = false ->
  mem "#" a = false -> mem CR a = false ->
  text CORE_FILE w
  = Some (pre ++ Init.acl_prefix ++ mid ++ Init.zone_prefix ++ post) ->
  contains Init.acl_prefix pre = false ->
  contains Init.acl_prefix mid = false ->
  contains Init.acl_prefix post = false ->
  contains Init.zone_prefix pre = false ->
  contains Init.zone_prefix mid = false ->
  contains Init.zone_prefix post = false ->
  let zone_name := a ++ L ".orbitlab.internal" in
  let w1 :=
    after_init
      (pre ++ Init.acl_block net ++ mid ++ Init.zone_block zone_name ++ post)
      zone_name w in
  Init.run host w = (Return tt, w1)
  /\ Init.run host w1 = (Return tt, printed (L "Already initialized.") w1).
Proof.
  intros Hnet Hout Ha Hb Hhash Hcr Htext Ha1 Ha2 Ha3 Hz1 Hz2 Hz3 zone_name w1.
  assert (mem "#" zone_name = false) as Hzh.
  { unfold zone_name. now rewrite mem_app, Hhash. }
  assert (mem CR zone_name = false) as Hzc.
  { unfold zone_name. now rewrite mem_app, Hcr. }
  split.
  - rewrite (run_on_text host w net zone_name _ Hnet
               (zone_of_one_hyphen host a b w Hout Ha Hb) Htext).
    rewrite contains_app_intro. unfold w1. f_equal. f_equal.
    now apply substitute_acl_zone.
  - assert (contains Init.acl_prefix
              (pre ++ Init.acl_block net ++ mid ++ Init.zone_block zone_name
                 ++ post) = false) as Hnone.
    { apply negb_true_iff.
      rewrite <- no_start_nil_contains; [| discriminate]. no_start_blocks. }
    assert (mem CR (pre ++ Init.acl_block net ++ mid
                      ++ Init.zone_block zone_name ++ post) = false) as Hnew.
    { pose proof (text_no_CR _ _ _ Htext) as Hdata.
      rewrite !mem_app in Hdata.
      do 4 (apply orb_false_iff in Hdata; destruct Hdata as [? Hdata]).
      rewrite !mem_app.
      rewrite acl_block_no_CR, (zone_block_without CR _ Hzc eq_refl).
      repeat (apply orb_false_iff; split); assumption. }
    assert (text CORE_FILE w1
            = Some (pre ++ Init.acl_block net ++ mid
                      ++ Init.zone_block zone_name ++ post)) as Ht1.
    { unfold text, w1, after_init. cbn [content corefile option_map]. f_equal.
      now apply universal_newlines_id. }
    rewrite (run_on_text host w1 net zone_name _ Hnet
               (zone_of_one_hyphen host a b w1 Hout Ha Hb) Ht1).
    now rewrite Hnone.
Qed.

Lemma init_twice_witness :
  let zone_name := L "sector1" ++ L ".orbitlab.internal" in
  let w1 :=
    after_init
      ((L ". {" ++ [LF] ++ L "    ") ++ Init.acl_block (mkNet 167772160 24)
       ++ ([LF] ++ L "    ") ++ Init.zone_block zone_name
       ++ ([LF] ++ L "    forward . 1.1.1.1" ++ [LF] ++ L "}" ++ [LF]))
      zone_name template_world in
  Init.run sector1_host template_world = (Return tt, w1)
  /\ Init.run sector1_host w1
     = (Return tt, printed (L "Already initialized.") w1).
Proof.
  apply (init_twice sector1_host template_world (mkNet 167772160 24)
           (L "sector1") (L "dns" ++ [LF])
           (L ". {" ++ [LF] ++ L "    ") ([LF] ++ L "    ")
           ([LF] ++ L "    forward . 1.1.1.1" ++ [LF] ++ L "}" ++ [LF]));
    reflexivity.
Defined.

(** * The structural lines and the reserved names *)

Lemma startswith_token_line h token rest :
  mem SP h = false -> mem SP token = false -> h <> token ->
  startswith (h ++ L " ") (token ++ SP :: rest) = false.
Proof.
  intros Hh Ht Hne.
  destruct (startswith (h ++ L " ") (token ++ SP :: rest)) eqn:E;
    [| reflexivity].
  destruct Hne. now apply (token_unique h token rest).
Qed.

Lemma startswith_space_line h rest :
  h <> [] -> mem SP h = false -> startswith (h ++ L " ") (SP :: rest) = false.
Proof.
  intros Hne Hh. destruct h as [| c h]; [contradiction |].
  rewrite mem_cons in Hh. apply orb_false_iff in Hh. destruct Hh as [Hc _].
  cbn [app startswith]. now rewrite Ascii.eqb_sym, Hc.
Qed.

Lemma startswith_close_line h :
  h <> [] -> startswith (h ++ L " ") (L ")" ++ [LF]) = false.
Proof.
  intros Hne. destruct h as [| c [| d h]]; [contradiction | |];
    cbn [app L list_ascii_of_string startswith].
  - destruct (Ascii.eqb c ")"); reflexivity.
  - destruct h; cbn [app startswith]; now rewrite !andb_false_r.
Qed.

Lemma not_forbidden_neq h :
  existsb (str_eqb h) RecordManagement.forbidden = false ->
  h <> L "$ORIGIN" /\ h <> L "@" /\ h <> L "ns1".
Proof.
  cbn [RecordManagement.forbidden existsb]. intros H.
  do 3 (apply orb_false_iff in H; destruct H as [? H]).
  repeat split; now apply str_eqb_neq.
Qed.

(** A space-free hostname that is not reserved heads no line of a fresh
    zone file. *)
Lemma physical_lines_free zone_name h :
  h <> [] -> mem SP h = false ->
  existsb (str_eqb h) RecordManagement.forbidden = false ->
  lines_of h (physical_lines zone_name) = [].
Proof.
  intros Hne Hh Hres. destruct (not_forbidden_neq _ Hres) as [H1 [H2 H3]].
  unfold lines_of, physical_lines, physical_bodies. cbn [map].
  rewrite <- !app_assoc.
  change (L "$ORIGIN " ++ zone_name ++ L "." ++ [LF])
    with (L "$ORIGIN" ++ SP :: zone_name ++ L "." ++ [LF]).
  change (L "@   3600 IN SOA ns1." ++ zone_name ++ L ". admin." ++ zone_name
            ++ L ". (" ++ [LF])
    with (L "@" ++ SP :: L "  3600 IN SOA ns1." ++ zone_name ++ L ". admin."
            ++ zone_name ++ L ". (" ++ [LF]).
  change (L "        1 3600 600 86400 3600" ++ [LF])
    with (SP :: L "       1 3600 600 86400 3600" ++ [LF]).
  change (L "    IN NS ns1." ++ zone_name ++ L "." ++ [LF])
    with (SP :: L "   IN NS ns1." ++ zone_name ++ L "." ++ [LF]).
  change (L "ns1 IN A 127.0.0.1" ++ [LF])
    with (L "ns1" ++ SP :: L "IN A 127.0.0.1" ++ [LF]).
  cbn [filter].
  rewrite !startswith_token_line, !startswith_space_line,
    startswith_close_line by (assumption || reflexivity).
  reflexivity.
Qed.

(** X13: in a freshly created zone file (zone name on one line) the
    reserved names $ORIGIN, @ and ns1 are exactly the space-free hostnames
    that head a line: each heads one of the six lines, and no other such
    hostname heads any. *)
Theorem reserved_names_head_fresh_lines (zone_name : str) (w : World) (h : str) :
  zonefile w = None ->
  single_line zone_name = true ->
  h <> [] ->
  mem SP h = false ->
  let w' := exec (Init.__create_zone_file__ zone_name) w in
  length (zone_lines w') = 6
  /\ (lines_of h (zone_lines w') <> []
      <-> In h [L "$ORIGIN"; L "@"; L "ns1"]).
Proof.
  intros Habs Hzn Hne Hh w'.
  assert (zone_lines w' = physical_lines zone_name) as Hl.
  { unfold w', exec. rewrite (create_on_absent _ _ Habs). cbn [snd].
    fold (zone_text zone_name).
    rewrite (zone_lines_of_file
               (mkWorld (corefile w) (Some (zone_text zone_name)) (stdout w)
                  (restarts w))
               (zone_text zone_name) eq_refl (zone_text_no_CR _ Hzn)).
    now apply readlines_zone_text. }
  rewrite Hl. split; [reflexivity |]. split.
  - intros Hsome.
    destruct (existsb (str_eqb h) RecordManagement.forbidden) eqn:E.
    + apply existsb_exists in E. destruct E as [f [Hf Heq]].
      apply str_eqb_eq in Heq. subst f.
      cbn [RecordManagement.forbidden In] in Hf. cbn [In].
      destruct Hf as [H | [H | [H | [H | []]]]]; auto.
      subst h. discriminate Hh.
    + destruct Hsome. now apply physical_lines_free.
  - cbn [In]. intros [<- | [<- | [<- | []]]]; discriminate.
Qed.

Lemma reserved_names_head_fresh_lines_witness :
  let w' := exec (Init.__create_zone_file__ (L "sector1.orbitlab.internal"))
              empty_world in
  length (zone_lines w') = 6
  /\ (lines_of (L "ns1") (zone_lines w') <> []
      <-> In (L "ns1") [L "$ORIGIN"; L "@"; L "ns1"]).
Proof.
  apply (reserved_names_head_fresh_lines (L "sector1.orbitlab.internal")
           empty_world (L "ns1")); try reflexivity.
  discriminate.
Defined.

Lemma universal_newlines_app_clean a s :
  mem CR a = false -> universal_newlines (a ++ s) = a ++ universal_newlines s.
Proof.
  induction a as [| c a IH]; intros H; [reflexivity |].
  rewrite mem_cons in H. apply orb_false_iff in H. destruct H as [Hc Ha].
  change ((c :: a) ++ s) with (c :: a ++ s).
  rewrite universal_newlines_cons, Ascii.eqb_sym, Hc, (IH Ha). reflexivity.
Qed.

(** X9: the structural lines are never lost: in every state reached from
    the creation of the zone file (zone name on one line) by adds with any
    arguments and by deletes of hostnames without space inside, the zone
    file still begins with the content that creation wrote. *)
Theorem header_survives (zone_name : str) (w : World) :
  single_line zone_name = true ->
  header_reachable zone_name w ->
  exists rest, zonefile w = Some (zone_text zone_name ++ rest).
Proof.
  intros Hzn H.
  induction H as [w Habs | w args H [rest IH] | w args H [rest IH] Hsp].
  - exists []. unfold exec. rewrite (create_on_absent _ _ Habs). cbn [snd zonefile].
    now rewrite app_nil_r.
  - exists (rest ++ RecordManagement.record_line args).
    unfold exec. rewrite add_record_run, IH. unfold added. cbn [snd zonefile].
    now rewrite app_assoc.
  - unfold exec. rewrite delete_record_run. cbv zeta.
    destruct (str_eqb (strip (delete_hostname args)) []) eqn:E1;
      [now exists rest |].
    destruct (existsb _ RecordManagement.forbidden) eqn:E2; [now exists rest |].
    assert (text ZONE_FILE w
            = Some (zone_text zone_name ++ universal_newlines rest)) as Ht.
    { unfold text. cbn [content]. rewrite IH. cbn [option_map]. f_equal.
      apply universal_newlines_app_clean. now apply zone_text_no_CR. }
    rewrite Ht.
    destruct (lines_of _ (readlines _)); [now exists rest |].
    eexists. unfold deleted. cbn [snd zonefile]. f_equal.
    rewrite (readlines_app _ _ (zone_text_terminated zone_name)).
    rewrite lines_without_app, (readlines_zone_text _ Hzn).
    rewrite lines_without_all.
    + unfold writelines. rewrite concat_app.
      rewrite <- (zone_text_physical zone_name). reflexivity.
    + apply physical_lines_free; [now apply str_eqb_neq | exact Hsp | exact E2].
Qed.

Lemma header_survives_witness :
  exists rest,
    zonefile
      (exec (RecordManagement.delete_record (mkDelete (L "web1")))
         (exec (RecordManagement.add_record web1)
            (exec (Init.__create_zone_file__ (L "sector1.orbitlab.internal"))
               empty_world)))
    = Some (zone_text (L "sector1.orbitlab.internal") ++ rest).
Proof.
  apply (header_survives (L "sector1.orbitlab.internal")); [reflexivity |].
  apply hr_delete; [apply hr_add, hr_create |]; reflexivity.
Defined.

(** * Adding: one line, and before init *)

(** X16: when the zone file is absent, or its text is empty or ends with a
    newline, [add_record] with a one-line hostname and address succeeds and
    the lines of the zone file are the earlier lines followed by the one
    record line; an absent file is created by the call. *)
Theorem add_record_appends_one_line (args : AddRecordArgs) (w : World) :
  (forall data, text ZONE_FILE w = Some data -> terminated data = true) ->
  single_line (add_hostname args) = true ->
  single_line (add_ip args) = true ->
  result (RecordManagement.add_record args) w = Return tt
  /\ zone_lines (exec (RecordManagement.add_record args) w)
     = zone_lines w ++ [RecordManagement.record_line args].
Proof.
  intros Hterm Hh Hip. unfold result, exec. rewrite add_record_run.
  cbn [fst snd]. split; [reflexivity |].
  unfold zone_lines at 1. rewrite (text_added _ _ _ Hh Hip).
  unfold zone_lines, text. cbn [content].
  destruct (zonefile w) as [raw |] eqn:Hraw; cbn [option_map].
  - apply readlines_added; try assumption.
    apply Hterm. unfold text. cbn [content]. now rewrite Hraw.
  - now apply (readlines_added args []).
Qed.

Lemma add_record_appends_one_line_witness :
  result (RecordManagement.add_record web1) empty_world = Return tt
  /\ zone_lines (exec (RecordManagement.add_record web1) empty_world)
     = zone_lines empty_world ++ [RecordManagement.record_line web1].
Proof.
  apply (add_record_appends_one_line web1 empty_world); try reflexivity.
  intros data H. discriminate H.
Defined.

(** X15: a record added before the zone file was created suppresses the
    structural lines for good: [add_record] creates the file with the
    record line alone, and zone-file creation afterwards finds the file
    and writes nothing. *)
Theorem add_before_create (args : AddRecordArgs) (zone_name : str) (w : World) :
  zonefile w = None ->
  let w1 := exec (RecordManagement.add_record args) w in
  zonefile w1 = Some (RecordManagement.record_line args)
  /\ Init.__create_zone_file__ zone_name w1 = (Return tt, w1).
Proof.
  intros Habs w1.
  assert (zonefile w1 = Some (RecordManagement.record_line args)) as Hz.
  { unfold w1, exec. rewrite add_record_run, Habs. reflexivity. }
  split; [exact Hz |]. now apply (create_on_existing _ _ _ Hz).
Qed.

Lemma add_before_create_witness :
  let w1 := exec (RecordManagement.add_record web1) empty_world in
  zonefile w1 = Some (RecordManagement.record_line web1)
  /\ Init.__create_zone_file__ (L "sector1.orbitlab.internal") w1
     = (Return tt, w1).
Proof.
  apply (add_before_create web1 (L "sector1.orbitlab.internal") empty_world).
  reflexivity.
Defined.
